(** * aqua-simulation: the calculation core, embedded and verified

    A shallow embedding of the four engines of the aquarium simulator
    (volume calculator, glass-thickness rules, equipment strategies and
    the reverse dimension finder) together with the fragment of the
    JavaScript value semantics they rely on.

    Number model.  A JavaScript number is an IEEE-754 double.  Finite
    doubles are idealised here as exact rationals ([Q]): no rounding, no
    overflow and no signed zero.  Where a computation can leave the finite
    numbers (division, a missing argument coerced to a number, the
    [Infinity] bounds of the rule tables) the type [JS.num] adds [NaN] and
    the two infinities and follows the IEEE rules for them.  Quantities
    that are integers by construction (glass thickness, rounded
    dimensions) are typed [Z]. *)

From Stdlib Require Import QArith Qround Qminmax Qabs ZArith String Ascii List Lia Lqa.
From Stdlib Require Import DecimalString DecimalZ.
From Stdlib Require Import DecimalPos Sorted.
From stdpp Require Import gmap strings.
From stdpp Require Import sorting.
Import ListNotations.

Local Open Scope Q_scope.

(* ================================================================== *)
(** * JavaScript numbers, values and coercions                         *)
(* ================================================================== *)

Module JS.

(** ** Numbers *)

Inductive num : Type :=
| Fin (q : Q)
| PInf
| NInf
| NaN.

Definition Qlt_bool (x y : Q) : bool := negb (Qle_bool y x).

(** [a <= b]: false as soon as one side is [NaN]. *)
Definition leb (a b : num) : bool :=
  match a, b with
  | NaN, _ => false
  | _, NaN => false
  | NInf, _ => true
  | _, PInf => true
  | Fin x, Fin y => Qle_bool x y
  | Fin _, NInf => false
  | PInf, _ => false
  end.

(** [a < b]. *)
Definition ltb (a b : num) : bool :=
  match a, b with
  | NaN, _ => false
  | _, NaN => false
  | Fin x, Fin y => Qlt_bool x y
  | NInf, NInf => false
  | NInf, _ => true
  | PInf, _ => false
  | Fin _, PInf => true
  | Fin _, NInf => false
  end.

(** [a > b] and [a >= b] are the mirrored comparisons. *)
Definition gtb (a b : num) : bool := ltb b a.
Definition geb (a b : num) : bool := leb b a.

(** [a === b] on numbers. *)
Definition eqb (a b : num) : bool :=
  match a, b with
  | Fin x, Fin y => Qeq_bool x y
  | PInf, PInf => true
  | NInf, NInf => true
  | _, _ => false
  end.

Definition neg (a : num) : num :=
  match a with
  | Fin x => Fin (- x)
  | PInf => NInf
  | NInf => PInf
  | NaN => NaN
  end.

Definition add (a b : num) : num :=
  match a, b with
  | NaN, _ => NaN
  | _, NaN => NaN
  | Fin x, Fin y => Fin (x + y)
  | PInf, NInf => NaN
  | NInf, PInf => NaN
  | PInf, _ => PInf
  | NInf, _ => NInf
  | Fin _, PInf => PInf
  | Fin _, NInf => NInf
  end.

Definition sub (a b : num) : num := add a (neg b).

(** An infinity times (or divided by) a finite factor keeps or flips its
    sign; times zero it is [NaN]. *)
Definition scale_inf (inf : num) (y : Q) : num :=
  match y ?= 0 with
  | Eq => NaN
  | Gt => inf
  | Lt => neg inf
  end.

Definition mul (a b : num) : num :=
  match a, b with
  | NaN, _ => NaN
  | _, NaN => NaN
  | Fin x, Fin y => Fin (x * y)
  | Fin x, (PInf | NInf) => scale_inf b x
  | (PInf | NInf), Fin y => scale_inf a y
  | PInf, PInf => PInf
  | NInf, NInf => PInf
  | PInf, NInf => NInf
  | NInf, PInf => NInf
  end.

(** Division.  A finite value divided by zero is an infinity of the sign
    of the dividend (the zero is taken as [+0]), and [0/0] is [NaN]. *)
Definition div (a b : num) : num :=
  match a, b with
  | NaN, _ => NaN
  | _, NaN => NaN
  | Fin x, Fin y =>
      if Qeq_bool y 0 then
        match x ?= 0 with
        | Eq => NaN
        | Gt => PInf
        | Lt => NInf
        end
      else Fin (x / y)
  | Fin _, (PInf | NInf) => Fin 0
  | (PInf | NInf), Fin y =>
      match y ?= 0 with
      | Lt => neg a
      | _ => a
      end
  | (PInf | NInf), (PInf | NInf) => NaN
  end.

(** [Math.abs], [Math.max], [Math.min] (two arguments). *)
Definition Math_abs (a : num) : num :=
  match a with
  | Fin x => Fin (Qabs x)
  | PInf | NInf => PInf
  | NaN => NaN
  end.

Definition Math_max (a b : num) : num :=
  match a, b with
  | NaN, _ => NaN
  | _, NaN => NaN
  | _, _ => if leb a b then b else a
  end.

Definition Math_min (a b : num) : num :=
  match a, b with
  | NaN, _ => NaN
  | _, NaN => NaN
  | _, _ => if leb a b then a else b
  end.

(** [Math.round] of a finite number: the nearest integer, halves going
    up. *)
Definition Math_round (q : Q) : Z := Qfloor (q + 1 / 2).

(** Truthiness of a number: everything but [0] and [NaN]. *)
Definition num_truthy (a : num) : bool :=
  match a with
  | Fin x => negb (Qeq_bool x 0)
  | PInf | NInf => true
  | NaN => false
  end.

(** [a || d] on numbers. *)
Definition num_or (a d : num) : num := if num_truthy a then a else d.

(** ** Numbers and strings *)

(** The one-character string holding a double quote. *)
Definition dquote : string := String (ascii_of_nat 34) EmptyString.

(** [Number::toString] on an integer: its decimal digits, with a leading
    minus sign when negative. *)
Definition Z_to_string (z : Z) : string :=
  NilEmpty.string_of_int (Z.to_int z).

(** [x.toFixed(1)] for [x >= 0]: let [n] be the integer for which
    [n / 10 - x] is closest to zero, the larger one on a tie; print [n]
    with a point before its last digit. *)
Definition toFixed1_nonneg (q : Q) : string :=
  let n := Qfloor (q * 10 + 1 / 2) in
  (Z_to_string (n / 10) ++ "." ++ Z_to_string (n mod 10))%string.

(** [x.toFixed(1)] (for magnitudes below 1e21, where JavaScript switches
    to exponent notation). *)
Definition toFixed1 (a : num) : string :=
  match a with
  | NaN => "NaN"%string
  | PInf => "Infinity"%string
  | NInf => "-Infinity"%string
  | Fin q =>
      if Qlt_bool q 0 then ("-" ++ toFixed1_nonneg (- q))%string
      else toFixed1_nonneg q
  end.

Definition digit_of (c : ascii) : option Z :=
  let n := Z.of_nat (nat_of_ascii c) in
  if ((48 <=? n) && (n <=? 57))%Z then Some (n - 48)%Z else None.

(** Reads the longest run of decimal digits at the head of [s]: the value
    read so far, the number of digits, and the rest. *)
Fixpoint read_digits (s : string) (acc : Z) (cnt : nat) : Z * nat * string :=
  match s with
  | String c s' =>
      match digit_of c with
      | Some d => read_digits s' (acc * 10 + d)%Z (S cnt)
      | None => (acc, cnt, s)
      end
  | EmptyString => (acc, cnt, s)
  end.

(** An unsigned decimal literal at the head of [s]: digits, optionally a
    point and more digits, at least one digit overall.  Exponent parts are
    not read. *)
Definition read_decimal (s : string) : option (Q * string) :=
  let '(i, ni, r1) := read_digits s 0%Z 0%nat in
  match r1 with
  | String "."%char r2 =>
      let '(f, nf, r3) := read_digits r2 0%Z 0%nat in
      if ((ni =? 0) && (nf =? 0))%nat then None
      else Some (inject_Z i + inject_Z f / inject_Z (10 ^ Z.of_nat nf), r3)
  | _ => if (ni =? 0)%nat then None else Some (inject_Z i, r1)
  end.

Definition is_white (c : ascii) : bool :=
  let n := nat_of_ascii c in
  ((n =? 32) || (n =? 9) || (n =? 10) || (n =? 11) || (n =? 12) || (n =? 13))%nat.

Fixpoint skip_white (s : string) : string :=
  match s with
  | String c s' => if is_white c then skip_white s' else s
  | EmptyString => s
  end.

(** A sign, then either the word [Infinity] or an unsigned decimal. *)
Definition read_signed (s : string) : option (num * string) :=
  let '(sgn, body) :=
    match s with
    | String "-"%char r => (true, r)
    | String "+"%char r => (false, r)
    | _ => (false, s)
    end in
  if String.prefix "Infinity" body
  then Some (if sgn then NInf else PInf, substring 8 (String.length body - 8) body)
  else
    match read_decimal body with
    | Some (q, rest) => Some (Fin (if sgn then - q else q), rest)
    | None => None
    end.

(** [parseFloat]: the longest numeric prefix after leading blanks, [NaN]
    when there is none. *)
Definition parseFloat (s : string) : num :=
  match read_signed (skip_white s) with
  | Some (n, _) => n
  | None => NaN
  end.

(** [StringToNumber], the coercion of a string used as a number: blank is
    [0]; otherwise the whole string, blanks at both ends apart, has to be
    one numeric literal.  (Hexadecimal, octal and binary literals and
    exponent parts are not covered.) *)
Definition StringToNumber (s : string) : num :=
  let body := skip_white s in
  match body with
  | EmptyString => Fin 0
  | _ =>
      match read_signed body with
      | Some (n, rest) =>
          match skip_white rest with
          | EmptyString => n
          | _ => NaN
          end
      | None => NaN
      end
  end.

(** ** Values *)

(** The values that travel through the equipment strategies: numbers,
    strings, [null], [undefined], arrays, and plain objects as finite maps
    from property names to values. *)
#[local] Unset Elimination Schemes.
Inductive value : Type :=
| VUndefined
| VNull
| VNum (n : num)
| VStr (s : string)
| VArr (l : list value)
| VObj (props : gmap string value).
#[local] Set Elimination Schemes.

(** [ToNumber].  An object coerces through the string [[object Object]]
    to [NaN]; an array through the join of its elements: empty is [0], two
    or more elements give a text with a comma, hence [NaN], and a single
    element is read back from its own text ([null] and [undefined] print
    as the empty text). *)
Fixpoint ToNumber (v : value) : num :=
  match v with
  | VUndefined => NaN
  | VNull => Fin 0
  | VNum n => n
  | VStr s => StringToNumber s
  | VObj _ => NaN
  | VArr [] => Fin 0
  | VArr [x] =>
      match x with
      | VUndefined | VNull => Fin 0
      | _ => ToNumber x
      end
  | VArr (_ :: _ :: _) => NaN
  end.

(** [ToBoolean]. *)
Definition truthy (v : value) : bool :=
  match v with
  | VUndefined | VNull => false
  | VNum n => num_truthy n
  | VStr s => negb (String.eqb s EmptyString)
  | VArr _ | VObj _ => true
  end.

(** [a || d]. *)
Definition or_else (a d : value) : value := if truthy a then a else d.

(** [a[i]] on an array held as a list: [undefined] past the end. *)
Definition index (a : list value) (i : nat) : value := nth i a VUndefined.

(** [v?.topSqFt]: the property of an object when it has one, and
    [undefined] otherwise: on [null] and [undefined] by the optional
    chaining, on numbers, strings and arrays because they carry no
    property of that name. *)
Definition opt_topSqFt (v : value) : value :=
  match v with
  | VObj props => default VUndefined (props !! "topSqFt"%string)
  | _ => VUndefined
  end.

(** The characters of a string as one-character strings, the way a string
    is iterated. *)
Fixpoint chars (s : string) : list value :=
  match s with
  | EmptyString => []
  | String c s' => VStr (String c EmptyString) :: chars s'
  end.

(** The array pattern [[a, b, c]] applied to a value: arrays and strings
    are iterable, anything else raises a [TypeError] ([None]). *)
Definition destructure3 (v : value) : option (value * value * value) :=
  match v with
  | VArr l => Some (index l 0, index l 1, index l 2)
  | VStr s => let l := chars s in Some (index l 0, index l 1, index l 2)
  | _ => None
  end.

(** Relational operators whose right operand is a number: the left
    operand is coerced with [ToNumber]. *)
Definition value_leb (a : value) (b : num) : bool := leb (ToNumber a) b.
Definition value_ltb (a : value) (b : num) : bool := ltb (ToNumber a) b.
Definition value_gtb (a : value) (b : num) : bool := gtb (ToNumber a) b.

End JS.

(* ================================================================== *)
(** * constants.js                                                     *)
(* ================================================================== *)

Module CONVERSIONS.

Definition GALLONS_TO_LITERS : Q := 0.264172.
Definition LITERS_TO_GALLONS : Q := 3.78541.
Definition INCHES_TO_CM : Q := 2.54.
Definition CM_TO_INCHES : Q := 0.393701.

End CONVERSIONS.

(* ================================================================== *)
(** * TankCalculator                                                   *)
(* ================================================================== *)

Module TankCalculator.

(** Volume in liters of a tank given in inches. *)
Definition calculateVolume (length width height : Q) : Q :=
  let lengthCm := length * CONVERSIONS.INCHES_TO_CM in
  let widthCm := width * CONVERSIONS.INCHES_TO_CM in
  let heightCm := height * CONVERSIONS.INCHES_TO_CM in
  let volumeCm3 := lengthCm * widthCm * heightCm in
  volumeCm3 / 1000.

Definition convertToGallons (liters : Q) : Q :=
  liters * CONVERSIONS.GALLONS_TO_LITERS.

Definition convertToLiters (gallons : Q) : Q :=
  gallons / CONVERSIONS.GALLONS_TO_LITERS.

Definition adjustForDisplacement (volumeLiters displacementPercent : Q) : Q :=
  volumeLiters * (1 - displacementPercent).



Record SurfaceArea : Type := {
  totalSqIn : Q;
  totalSqFt : Q;
  topSqIn : Q;
  topSqFt : Q
}.

Definition calculateSurfaceArea (length width height : Q) : SurfaceArea :=
  let topBottom := 2 * (length * width) in
  let frontBack := 2 * (length * height) in
  let leftRight := 2 * (width * height) in
  let totalAreaSqIn := topBottom + frontBack + leftRight in
  let topAreaSqIn := length * width in
  {| totalSqIn := totalAreaSqIn;
     totalSqFt := totalAreaSqIn / 144;
     topSqIn := topAreaSqIn;
     topSqFt := topAreaSqIn / 144 |}.

End TankCalculator.

(* ================================================================== *)
(** * GlassRecommender                                                 *)
(* ================================================================== *)

Module GlassRecommender.

Import JS.

Record Row : Type := {
  maxDepth : num;
  maxVolume : num;
  thickness : Z;
  description : string
}.

Definition recommendations : list Row :=
  [ {| maxDepth := Fin 12; maxVolume := Fin 20; thickness := 3%Z;
       description := "3mm (for nano tanks only)" |};
    {| maxDepth := Fin 15; maxVolume := Fin 40; thickness := 5%Z;
       description := "5mm (small tanks)" |};
    {| maxDepth := Fin 24; maxVolume := Fin 100; thickness := 6%Z;
       description := "6mm (small-medium tanks)" |};
    {| maxDepth := Fin 30; maxVolume := Fin 200; thickness := 8%Z;
       description := "8mm (medium tanks)" |};
    {| maxDepth := Fin 36; maxVolume := Fin 400; thickness := 10%Z;
       description := "10mm (large tanks)" |};
    {| maxDepth := Fin 48; maxVolume := PInf; thickness := 12%Z;
       description := "12mm+ (extra large tanks)" |} ].

(** Thickness in mm from the water depth and the longest panel. *)
Definition getThicknessForDimensions (depth panelSize : num) : Z :=
  (let baseThickness :=
    if leb depth (Fin 12) then 3
    else if leb depth (Fin 15) then 5
    else if leb depth (Fin 24) then 6
    else if leb depth (Fin 30) then 8
    else if leb depth (Fin 36) then 10
    else 12 in
  let baseThickness :=
    if gtb panelSize (Fin 48) then baseThickness + 2 else baseThickness in
  let baseThickness :=
    if gtb panelSize (Fin 60) then baseThickness + 2 else baseThickness in
  Z.min baseThickness 12)%Z.

(** The description at the end of the table; the table is a non-empty
    constant, so the access [recommendations[length - 1]] always finds a
    row. *)
Definition last_description : string :=
  description
    (List.last recommendations
       {| maxDepth := NaN; maxVolume := NaN; thickness := 0%Z; description := EmptyString |}).

Definition getRecommendation (length width height : num) : string :=
  let maxPanelDimension := Math_max length width in
  let recommendedThickness := getThicknessForDimensions height maxPanelDimension in
  let recommendedThickness :=
    if gtb maxPanelDimension (Fin 60)
    then Z.max recommendedThickness 10%Z
    else recommendedThickness in
  let thicknessRec :=
    List.find (fun rec => (thickness rec =? recommendedThickness)%Z) recommendations in
  match thicknessRec with
  | Some rec => description rec
  | None => last_description
  end.

Record DetailedRecommendation : Type := {
  detail_thickness : string;
  safetyNote : string;
  considerations : list string
}.

Definition getDetailedRecommendation (length width height : num)
  : DetailedRecommendation :=
  let thickness := getRecommendation length width height in
  let maxPanelDimension := Math_max length width in
  let safetyNote :=
    if gtb height (Fin 36) || gtb maxPanelDimension (Fin 60)
    then ("Consider professional consultation for tanks over 36" ++ dquote
          ++ " deep or panels over 5' long.")%string
    else if gtb height (Fin 24) || gtb maxPanelDimension (Fin 48)
    then "Ensure proper bracing and frame support for optimal safety."
    else EmptyString in
  let considerations :=
    [ "Always use tempered or laminated glass for safety";
      "Consider professional installation for larger tanks";
      "Regular inspection of seals and supports recommended" ] in
  let considerations :=
    if gtb maxPanelDimension (Fin 48)
    then considerations ++ ["Extra reinforcement recommended for panels over 4 feet long"]
    else considerations in
  {| detail_thickness := thickness;
     safetyNote := safetyNote;
     considerations := considerations |}.

Definition requiresSpecialAttention (length width height : num) : bool :=
  let maxPanelDimension := Math_max length width in
  gtb height (Fin 36) || gtb maxPanelDimension (Fin 60).

End GlassRecommender.

(* ================================================================== *)
(** * EquipmentStrategy and its factory                                *)
(* ================================================================== *)

Module EquipmentStrategy.

Import JS.

(** One row of a rule table: an object with one of the bound properties
    [maxVolume], [maxArea], [maxFlow] and the text. *)
Record Band : Type := {
  maxVolume : option num;
  maxArea : option num;
  maxFlow : option num;
  recommendation : string
}.

Definition volumeBand (bound : num) (text : string) : Band :=
  {| maxVolume := Some bound; maxArea := None; maxFlow := None;
     recommendation := text |}.
Definition areaBand (bound : num) (text : string) : Band :=
  {| maxVolume := None; maxArea := Some bound; maxFlow := None;
     recommendation := text |}.
Definition flowBand (bound : num) (text : string) : Band :=
  {| maxVolume := None; maxArea := None; maxFlow := Some bound;
     recommendation := text |}.

(** A bound read from a row; a missing property reads as [undefined],
    which compares as [NaN]. *)
Definition bound_value (b : option num) : num :=
  match b with
  | Some n => n
  | None => NaN
  end.

Record t : Type := {
  type : string;
  recommendations : list Band;
  criteriaExtractor : list value -> value
}.

Definition getDefaultExtractor (type : string) : list value -> value :=
  if String.eqb type "volume" then
    fun params => index params 0
  else if String.eqb type "surfaceArea" then
    fun params => or_else (opt_topSqFt (index params 1)) (VNum (Fin 0))
  else if String.eqb type "flow" then
    fun params => or_else (index params 2) (VNum (Fin 300))
  else if String.eqb type "dimensions" then
    fun params => VArr [index params 0; index params 3; index params 4]
  else
    fun _ => VNum (Fin 0).

(** The constructor: a missing extractor is replaced by the default one
    of the type. *)
Definition new (type : string) (recommendations : list Band)
    (criteriaExtractor : option (list value -> value)) : t :=
  {| type := type;
     recommendations := recommendations;
     criteriaExtractor :=
       match criteriaExtractor with
       | Some f => f
       | None => getDefaultExtractor type
       end |}.

Inductive CriteriaProperty : Type := MaxVolume | MaxArea | MaxFlow.

(** ['p' in rec]. *)
Definition has (p : option num) : bool :=
  match p with
  | Some _ => true
  | None => false
  end.

Definition getCriteriaProperty (rec : Band) : CriteriaProperty :=
  if has (maxVolume rec) then MaxVolume
  else if has (maxArea rec) then MaxArea
  else if has (maxFlow rec) then MaxFlow
  else MaxVolume.

(** [rec[property]]. *)
Definition get_bound (rec : Band) (property : CriteriaProperty) : num :=
  match property with
  | MaxVolume => bound_value (maxVolume rec)
  | MaxArea => bound_value (maxArea rec)
  | MaxFlow => bound_value (maxFlow rec)
  end.

(** [recommendations[length - 1]?.recommendation || '--']. *)
Definition last_or_placeholder (recommendations : list Band) : string :=
  match last recommendations with
  | Some rec =>
      if String.eqb (recommendation rec) EmptyString then "--"%string
      else recommendation rec
  | None => "--"%string
  end.

Definition getDimensionsRecommendation (this : t) (dimensionsData : value)
  : option string :=
  match destructure3 dimensionsData with
  | None => None
  | Some (volumeGallons, length, width) =>
      let found :=
        List.find (fun rec => value_leb volumeGallons (bound_value (maxVolume rec)))
          (recommendations this) in
      let baseRec :=
        match found with
        | Some rec => recommendation rec
        | None => last_or_placeholder (recommendations this)
        end in
      let baseRec :=
        if value_gtb length (mul (ToNumber width) (Fin 1.5))
        then (baseRec ++ " - consider multiple units for even flow in long tanks")%string
        else baseRec in
      Some baseRec
  end.

Definition getRecommendation (this : t) (params : list value) : option string :=
  let criteriaValue := criteriaExtractor this params in
  if String.eqb (type this) "dimensions" then
    getDimensionsRecommendation this criteriaValue
  else
    let found :=
      List.find
        (fun rec =>
           let property := getCriteriaProperty rec in
           value_leb criteriaValue (get_bound rec property))
        (recommendations this) in
    Some match found with
         | Some rec => recommendation rec
         | None => last_or_placeholder (recommendations this)
         end.

End EquipmentStrategy.

Module EquipmentStrategyFactory.

Import JS.
Import EquipmentStrategy.

Definition filterRecommendations : list Band :=
  [ volumeBand (Fin 20) "10-20 GPH canister or small HOB filter";
    volumeBand (Fin 40) "20-40 GPH canister or medium HOB filter";
    volumeBand (Fin 75) "40-75 GPH canister filter";
    volumeBand (Fin 125) "75-125 GPH canister filter";
    volumeBand (Fin 200) "125-200 GPH canister filter";
    volumeBand PInf "200+ GPH canister filter or sump system" ].

(** The text at the end of the filter table, read without a guard in the
    source ([recommendations[length - 1].recommendation]); the table is
    the constant above. *)
Definition filterLastText : string :=
  match last filterRecommendations with
  | Some r => recommendation r
  | None => EmptyString
  end.

(** The function handed to the constructor as the filter strategy's
    criteria extractor. *)
Definition filterExtractor (params : list value) : value :=
  let volumeGallons := index params 0 in
  let surfaceArea := index params 1 in
  let rec :=
    match List.find (fun r => value_leb volumeGallons (bound_value (maxVolume r)))
            filterRecommendations with
    | Some r =>
        if String.eqb (recommendation r) EmptyString then filterLastText
        else recommendation r
    | None => filterLastText
    end in
  let topAreaFt := or_else (opt_topSqFt surfaceArea) (VNum (Fin 0)) in
  let rec :=
    if value_ltb topAreaFt (Fin 1.5) && value_ltb volumeGallons (Fin 20) then
      "5-10 GPH sponge filter ideal for shallow tanks with small surface area"%string
    else if value_gtb topAreaFt (Fin 6) then
      (rec ++ " + surface skimmer for large surface area")%string
    else if value_ltb topAreaFt (Fin 3) && value_gtb volumeGallons (Fin 30) then
      (rec ++ " - consider adding powerhead for better circulation in tall/deep tanks")%string
    else rec in
  VStr rec.

Definition createFilterStrategy : t :=
  new "volume" filterRecommendations (Some filterExtractor).

Definition heaterRecommendations : list Band :=
  [ volumeBand (Fin 10) "50-100W submersible heater";
    volumeBand (Fin 20) "100-150W submersible heater";
    volumeBand (Fin 40) "150-200W submersible heater";
    volumeBand (Fin 75) "200-300W submersible heater";
    volumeBand (Fin 125) "300-400W submersible heater";
    volumeBand (Fin 200) "400-600W submersible heater";
    volumeBand PInf "600W+ submersible or inline heater" ].

Definition createHeaterStrategy : t := new "volume" heaterRecommendations None.

Definition chillerRecommendations : list Band :=
  [ volumeBand (Fin 20) "1/10 HP chiller for small tanks in warm climates";
    volumeBand (Fin 75) "1/4 HP chiller for medium tanks";
    volumeBand (Fin 125) "1/3 HP chiller for large tanks";
    volumeBand PInf "1/2 to 1 HP chiller for very large tanks" ].

Definition createChillerStrategy : t := new "volume" chillerRecommendations None.

Definition uvSterilizerRecommendations : list Band :=
  [ flowBand (Fin 100) "5-9W UV sterilizer";
    flowBand (Fin 200) "11-18W UV sterilizer";
    flowBand (Fin 400) "25-36W UV sterilizer";
    flowBand PInf "55W+ UV sterilizer or multiple units" ].

Definition createUVSterilizerStrategy : t := new "flow" uvSterilizerRecommendations None.

Definition airPumpRecommendations : list Band :=
  [ areaBand (Fin 2) "10-30 GPH air pump with single airstone";
    areaBand (Fin 4) "30-60 GPH air pump with dual airstones";
    areaBand PInf "60-100 GPH air pump with manifold system" ].

Definition createAirPumpStrategy : t := new "surfaceArea" airPumpRecommendations None.

Definition thermometerRecommendations : list Band :=
  [ volumeBand (Fin 20) "Digital stick thermometer";
    volumeBand (Fin 75) "Digital thermometer with external probe";
    volumeBand PInf "Digital thermometer with multiple probes" ].

Definition createThermometerStrategy : t := new "volume" thermometerRecommendations None.

Definition circulationPumpRecommendations : list Band :=
  [ volumeBand (Fin 20) "200-400 GPH powerhead";
    volumeBand (Fin 55) "400-800 GPH powerhead";
    volumeBand (Fin 75) "800-1200 GPH powerhead or multiple units";
    volumeBand PInf "1200+ GPH powerhead or multiple units" ].

Definition createCirculationPumpStrategy : t :=
  new "dimensions" circulationPumpRecommendations None.

Definition atoRecommendations : list Band :=
  [ areaBand (Fin 2) "1-2 gallon reservoir with small pump";
    areaBand (Fin 4) "2-5 gallon reservoir with medium pump";
    areaBand PInf "5+ gallon reservoir with large pump" ].

Definition createATOStrategy : t := new "surfaceArea" atoRecommendations None.

End EquipmentStrategyFactory.

(* ================================================================== *)
(** * EquipmentRecommender                                             *)
(* ================================================================== *)

Module EquipmentRecommender.

Import JS.

(** The strategies object, keyed by equipment type. *)
Definition strategies : gmap string EquipmentStrategy.t :=
  <[ "filter"%string := EquipmentStrategyFactory.createFilterStrategy ]>
  (<[ "heater"%string := EquipmentStrategyFactory.createHeaterStrategy ]>
  (<[ "chiller"%string := EquipmentStrategyFactory.createChillerStrategy ]>
  (<[ "uvSterilizer"%string := EquipmentStrategyFactory.createUVSterilizerStrategy ]>
  (<[ "airPump"%string := EquipmentStrategyFactory.createAirPumpStrategy ]>
  (<[ "thermometer"%string := EquipmentStrategyFactory.createThermometerStrategy ]>
  (<[ "circulationPump"%string := EquipmentStrategyFactory.createCirculationPumpStrategy ]>
  (<[ "ato"%string := EquipmentStrategyFactory.createATOStrategy ]> ∅))))))).

(** Dispatch on the equipment type; an unknown type gives the
    placeholder.  [None] is an exception raised by the strategy. *)
Definition getRecommendation (equipmentType : string) (params : list value)
  : option string :=
  match strategies !! equipmentType with
  | None => Some "--"%string
  | Some strategy => EquipmentStrategy.getRecommendation strategy params
  end.

Definition getFilterRecommendation (volumeGallons surfaceArea : value) :=
  getRecommendation "filter" [volumeGallons; surfaceArea].

Definition getHeaterRecommendation (volumeGallons : value) :=
  getRecommendation "heater" [volumeGallons].

Definition getChillerRecommendation (volumeGallons : value) :=
  getRecommendation "chiller" [volumeGallons].

Definition getUVSterilizerRecommendation (filterFlow : value) :=
  getRecommendation "uvSterilizer"
    [VNum (Fin 0); VNull; or_else filterFlow (VNum (Fin 300))].

Definition getAirPumpRecommendation (surfaceArea : value) :=
  getRecommendation "airPump" [VNum (Fin 0); surfaceArea].

Definition getThermometerRecommendation (volumeGallons : value) :=
  getRecommendation "thermometer" [volumeGallons].

Definition getCirculationPumpRecommendation (volumeGallons length width : value) :=
  getRecommendation "circulationPump" [volumeGallons; VNull; length; width].

Definition getATORcommendation (surfaceArea : value) :=
  getRecommendation "ato" [VNum (Fin 0); surfaceArea].

(** Typical filter turnover: the mean of three and five tank volumes per
    hour. *)
Definition estimateFilterFlow (volumeGallons : num) : num :=
  let minFlow := mul volumeGallons (Fin 3) in
  let maxFlow := mul volumeGallons (Fin 5) in
  div (add minFlow maxFlow) (Fin 2).

Record Recommendations : Type := {
  filter : string;
  heater : string;
  chiller : string;
  uvSterilizer : string;
  airPump : string;
  thermometer : string;
  circulationPump : string;
  ato : string
}.

Definition getAllRecommendations
    (length width height volumeGallons : num) (surfaceArea : value)
  : option Recommendations :=
  let filterFlow := estimateFilterFlow volumeGallons in
  r_filter ← getFilterRecommendation (VNum volumeGallons) surfaceArea;
  r_heater ← getHeaterRecommendation (VNum volumeGallons);
  r_chiller ← getChillerRecommendation (VNum volumeGallons);
  r_uv ← getUVSterilizerRecommendation (VNum filterFlow);
  r_air ← getAirPumpRecommendation surfaceArea;
  r_thermo ← getThermometerRecommendation (VNum volumeGallons);
  r_circ ← getCirculationPumpRecommendation (VNum volumeGallons) (VNum length) (VNum width);
  r_ato ← getATORcommendation surfaceArea;
  Some {| filter := r_filter;
          heater := r_heater;
          chiller := r_chiller;
          uvSterilizer := r_uv;
          airPump := r_air;
          thermometer := r_thermo;
          circulationPump := r_circ;
          ato := r_ato |}.

(** The surface-area object built by the calculator, as a value. *)
Definition surfaceAreaObject (a : TankCalculator.SurfaceArea) : value :=
  VObj (<[ "totalSqIn"%string := VNum (Fin (TankCalculator.totalSqIn a)) ]>
       (<[ "totalSqFt"%string := VNum (Fin (TankCalculator.totalSqFt a)) ]>
       (<[ "topSqIn"%string := VNum (Fin (TankCalculator.topSqIn a)) ]>
       (<[ "topSqFt"%string := VNum (Fin (TankCalculator.topSqFt a)) ]> ∅)))).

End EquipmentRecommender.

(* ================================================================== *)
(** * DimensionFinder                                                  *)
(* ================================================================== *)

Module Preset.

Record t : Type := {
  name : string;
  width : Q;
  length : Q;
  height : Q;
  volume : Q
}.

End Preset.

Module DimensionFinder.

Import JS.

Definition minDimension : Q := 10.
Definition maxDimension : Q := 120.
Definition tolerancePercent : Q := 0.1.

(** The optional per-axis maxima.  A maximum that is present is a finite
    number: with [Infinity] the loop of [getDimensionRange] would never
    end. *)
Record Constraints : Type := {
  maxWidth : option Q;
  maxLength : option Q;
  maxHeight : option Q
}.

(** The default argument [{}]. *)
Definition noConstraints : Constraints :=
  {| maxWidth := None; maxLength := None; maxHeight := None |}.

(** [constraint || fallback]: an absent or zero maximum is falsy. *)
Definition or_default (constraint : option Q) (fallback : Q) : Q :=
  match constraint with
  | Some q => if Qeq_bool q 0 then fallback else q
  | None => fallback
  end.

(** One entry of the result list. *)
Record Result : Type := {
  width : Z;
  length : Z;
  height : Z;
  volumeGallons : string;
  percentDifference : string;
  aspectRatio : string;
  footprint : Z;
  depth : Z
}.

(** The [while] loop of [getDimensionRange], with the array built so far
    and the running value as its state; [None] when the fuel is used up
    before the loop condition fails. *)
Fixpoint range_loop (fuel : nat) (range : list Q) (current max : Q)
  : option (list Q) :=
  match fuel with
  | O => None
  | S fuel' =>
      if Qle_bool current max then
        let range := range ++ [current] in
        let current :=
          if Qlt_bool current 24 then current + 2
          else if Qlt_bool current 48 then current + 4
          else current + 6 in
        range_loop fuel' range current max
      else Some range
  end.

(** Fuel that covers every run of the loop: each turn moves [current] up
    by at least two. *)
Definition range_fuel (min max : Q) : nat :=
  S (Z.to_nat (Qfloor (max - min) + 1)).

Definition getDimensionRange (min max : Q) : option (list Q) :=
  range_loop (range_fuel min max) [] min max.

(** Volume in liters from dimensions in inches. *)
Definition calculateVolume (length width height : Q) : Q :=
  let lengthCm := length * 2.54 in
  let widthCm := width * 2.54 in
  let heightCm := height * 2.54 in
  let volumeCm3 := lengthCm * widthCm * heightCm in
  volumeCm3 / 1000.

Definition getAspectRatio (length width height : Q) : string :=
  let lwRatio := toFixed1 (div (Fin length) (Fin width)) in
  let lhRatio := toFixed1 (div (Fin length) (Fin height)) in
  if Qlt_bool (width * 2) length then
    ("Wide (" ++ lwRatio ++ ":1 L:W)")%string
  else if Qlt_bool (length * 1.5) width then
    ("Deep (" ++ toFixed1 (div (Fin width) (Fin length)) ++ ":1 W:L)")%string
  else if Qlt_bool (length * 0.8) height then
    ("Tall (" ++ lhRatio ++ ":1 L:H)")%string
  else if Qlt_bool (height * 2) length then
    ("Long (" ++ lhRatio ++ ":1 L:H)")%string
  else
    ("Standard (" ++ lwRatio ++ ":1 L:W)")%string.

(** The percent deviation of a triple's volume from the target. *)
Definition percentDifferenceOf (targetVolumeGallons length width height : Q) : num :=
  let volume := calculateVolume length width height in
  let volumeGallons := volume * 0.264172 in
  let difference := Qabs (volumeGallons - targetVolumeGallons) in
  mul (div (Fin difference) (Fin targetVolumeGallons)) (Fin 100).

(** The body of the innermost loop: the entry pushed for one triple, if
    any. *)
Definition candidate (targetVolumeGallons width length height : Q) : list Result :=
  let volume := calculateVolume length width height in
  let volumeGallons := volume * 0.264172 in
  let percentDifference := percentDifferenceOf targetVolumeGallons length width height in
  if leb percentDifference (Fin (tolerancePercent * 100)) then
    [ {| width := Math_round width;
         length := Math_round length;
         height := Math_round height;
         volumeGallons := toFixed1 (Fin volumeGallons);
         percentDifference := toFixed1 percentDifference;
         aspectRatio := getAspectRatio length width height;
         footprint := Math_round (length * width);
         depth := Math_round height |} ]
  else [].

(** The three nested loops, in enumeration order. *)
Definition enumerate (targetVolumeGallons : Q)
    (widthRange lengthRange heightRange : list Q) : list Result :=
  flat_map (fun width =>
    flat_map (fun length =>
      flat_map (fun height =>
        candidate targetVolumeGallons width length height)
        heightRange)
      lengthRange)
    widthRange.

(** The comparator handed to [sort]. *)
Definition compareResults (a b : Result) : num :=
  sub (parseFloat (percentDifference a)) (parseFloat (percentDifference b)).

(** [Array.prototype.sort] is stable: [x] goes behind exactly the entries
    the comparator puts strictly before it.  An entry is moved behind [y]
    only when the comparator of the pair is positive; [NaN] counts as
    zero. *)
Fixpoint insert_sorted (cmp : Result -> Result -> num) (x : Result)
    (sorted : list Result) : list Result :=
  match sorted with
  | [] => [x]
  | y :: rest =>
      if gtb (cmp x y) (Fin 0) then y :: insert_sorted cmp x rest
      else x :: sorted
  end.

Definition sort (cmp : Result -> Result -> num) (results : list Result)
  : list Result :=
  fold_right (insert_sorted cmp) [] results.

(** The key of the [seen] set. *)
Definition key (result : Result) : string :=
  (Z_to_string (width result) ++ "x" ++ Z_to_string (length result)
     ++ "x" ++ Z_to_string (height result))%string.

(** The loop of [getUniqueResults] with its two accumulators; the
    [break] ends the recursion. *)
Fixpoint unique_loop (results unique : list Result) (seen : gset string)
    (maxResults : Z) : list Result :=
  match results with
  | [] => unique
  | result :: rest =>
      let key := key result in
      if bool_decide (key ∈ seen) then unique_loop rest unique seen maxResults
      else
        let seen := {[ key ]} ∪ seen in
        let unique := unique ++ [result] in
        if (maxResults <=? Z.of_nat (List.length unique))%Z then unique
        else unique_loop rest unique seen maxResults
  end.

Definition getUniqueResults (results : list Result) (maxResults : Z)
  : list Result :=
  unique_loop results [] ∅ maxResults.

Definition findDimensions (targetVolumeGallons : Q) (constraints : Constraints)
    (maxResults : Z) : option (list Result) :=
  let targetLiters := targetVolumeGallons / 0.264172 in
  let maxWidth := or_default (maxWidth constraints) maxDimension in
  let maxLength := or_default (maxLength constraints) maxDimension in
  let maxHeight := or_default (maxHeight constraints) 60 in
  widthRange ← getDimensionRange minDimension maxWidth;
  lengthRange ← getDimensionRange minDimension maxLength;
  heightRange ← getDimensionRange 12 maxHeight;
  let results := enumerate targetVolumeGallons widthRange lengthRange heightRange in
  let results := sort compareResults results in
  Some (getUniqueResults results maxResults).

Definition getCategory (volumeGallons : Q) : string :=
  if Qle_bool volumeGallons 20 then "Nano"
  else if Qle_bool volumeGallons 40 then "Small"
  else if Qle_bool volumeGallons 75 then "Medium"
  else if Qle_bool volumeGallons 150 then "Large"
  else "Extra Large".

Definition presets : list Preset.t :=
  [ Preset.Build_t "10 Gallon" 20 10 12 10;
    Preset.Build_t "20 Gallon Long" 30 12 12 20;
    Preset.Build_t "20 Gallon High" 24 12 16 20;
    Preset.Build_t "29 Gallon" 30 12 18 29;
    Preset.Build_t "30 Gallon" 36 12 16 30;
    Preset.Build_t "40 Gallon Breeder" 36 18 16 40;
    Preset.Build_t "40 Gallon Long" 48 12 16 40;
    Preset.Build_t "55 Gallon" 48 12 21 55;
    Preset.Build_t "75 Gallon" 48 18 21 75;
    Preset.Build_t "90 Gallon" 48 18 24 90;
    Preset.Build_t "120 Gallon" 48 24 24 120;
    Preset.Build_t "125 Gallon" 72 18 21 125;
    Preset.Build_t "150 Gallon" 72 18 24 150;
    Preset.Build_t "180 Gallon" 72 24 24 180 ].

Definition getPopularPresets (volumeGallons : Q) : list Preset.t :=
  let tolerance := volumeGallons * 0.2 in
  List.filter
    (fun preset => Qle_bool (Qabs (Preset.volume preset - volumeGallons)) tolerance)
    presets.

End DimensionFinder.

(* ================================================================== *)
(** * The application: unit systems and the range of the sliders       *)
(* ================================================================== *)

Module UNIT_SYSTEMS.

Definition IMPERIAL : string := "imperial".
Definition METRIC : string := "metric".

End UNIT_SYSTEMS.

Module AquariumApp.

Import JS.

(** [clampDimension], with the unit system of the application state as
    its first argument. *)
Definition clampDimension (currentUnitSystem : string) (cm : num) : num :=
  let minCm :=
    if String.eqb currentUnitSystem UNIT_SYSTEMS.IMPERIAL then Fin 25.4 else Fin 25 in
  let maxCm :=
    if String.eqb currentUnitSystem UNIT_SYSTEMS.IMPERIAL then Fin 304.8 else Fin 305 in
  Math_max minCm (Math_min maxCm cm).

End AquariumApp.

(* ================================================================== *)
(** * Specification-side definitions                                   *)
(* ================================================================== *)

(** The statements of the design document, written from its words, to be
    compared with the functions above. *)
Module Spec.

Import JS.

(** ** Unit conversion *)

(** The round trip as the document describes it: gallons to liters and
    back scales by the product of the two constants and misses the
    start. *)
Definition roundtrip_scaled (g : Q) : Prop :=
  ~ TankCalculator.convertToGallons (TankCalculator.convertToLiters g) == g
  /\ TankCalculator.convertToGallons (TankCalculator.convertToLiters g)
     == g * (CONVERSIONS.GALLONS_TO_LITERS * CONVERSIONS.LITERS_TO_GALLONS).

(** ** Glass thickness *)

(** The ascending step table on depth. *)
Definition base (depth : num) : Z :=
  if leb depth (Fin 12) then 3
  else if leb depth (Fin 15) then 5
  else if leb depth (Fin 24) then 6
  else if leb depth (Fin 30) then 8
  else if leb depth (Fin 36) then 10
  else 12.

(** The cumulative span penalties. *)
Definition penalties (span : num) : Z :=
  (if gtb span (Fin 48) then 2 else 0) + (if gtb span (Fin 60) then 2 else 0).

Definition maxThickness : Z := 12.

(** The table row that carries a thickness. *)
Definition row_of (thickness : Z) : option GlassRecommender.Row :=
  List.find (fun rec => (GlassRecommender.thickness rec =? thickness)%Z)
    GlassRecommender.recommendations.

(** The label as the document describes it: the row of the step-function
    value, and the last description when no row carries that value. *)
Definition label_by_step_value (length width height : num) : string :=
  match row_of (GlassRecommender.getThicknessForDimensions height (Math_max length width)) with
  | Some rec => GlassRecommender.description rec
  | None => "12mm+ (extra large tanks)"%string
  end.

(** The label with the guard for panels over 60 taken into account: a
    step value that no row carries is first raised to 10 when the span
    exceeds 60. *)
Definition label_with_panel_guard (length width height : num) : string :=
  match row_of (GlassRecommender.getThicknessForDimensions height (Math_max length width)) with
  | Some rec => GlassRecommender.description rec
  | None =>
      if gtb (Math_max length width) (Fin 60) then "10mm (large tanks)"%string
      else "12mm+ (extra large tanks)"%string
  end.

(** ** Equipment rules *)

Inductive Category : Type :=
| Filter | Heater | Chiller | UVSterilizer
| AirPump | Thermometer | CirculationPump | ATO.

Definition table (c : Category) : list EquipmentStrategy.Band :=
  match c with
  | Filter => EquipmentStrategyFactory.filterRecommendations
  | Heater => EquipmentStrategyFactory.heaterRecommendations
  | Chiller => EquipmentStrategyFactory.chillerRecommendations
  | UVSterilizer => EquipmentStrategyFactory.uvSterilizerRecommendations
  | AirPump => EquipmentStrategyFactory.airPumpRecommendations
  | Thermometer => EquipmentStrategyFactory.thermometerRecommendations
  | CirculationPump => EquipmentStrategyFactory.circulationPumpRecommendations
  | ATO => EquipmentStrategyFactory.atoRecommendations
  end.

Definition entry (c : Category) (r : EquipmentRecommender.Recommendations) : string :=
  match c with
  | Filter => EquipmentRecommender.filter r
  | Heater => EquipmentRecommender.heater r
  | Chiller => EquipmentRecommender.chiller r
  | UVSterilizer => EquipmentRecommender.uvSterilizer r
  | AirPump => EquipmentRecommender.airPump r
  | Thermometer => EquipmentRecommender.thermometer r
  | CirculationPump => EquipmentRecommender.circulationPump r
  | ATO => EquipmentRecommender.ato r
  end.

(** The upper bound of a band, whichever of the three names it goes by. *)
Definition bound (b : EquipmentStrategy.Band) : num :=
  EquipmentStrategy.get_bound b (EquipmentStrategy.getCriteriaProperty b).

(** The lookup rule: the first band, in table order, whose bound is at
    least the observed value. *)
Definition first_band (bands : list EquipmentStrategy.Band) (observed : num)
  : option EquipmentStrategy.Band :=
  List.find (fun b => leb observed (bound b)) bands.

(** The text the lookup rule yields, with the fall-back to the last band. *)
Definition lookup_text (bands : list EquipmentStrategy.Band) (observed : num) : string :=
  match first_band bands observed with
  | Some b => EquipmentStrategy.recommendation b
  | None => EquipmentStrategy.last_or_placeholder bands
  end.

(** The observed criterion values, derived as [getAllRecommendations]
    derives them: the top area of the surface-area object (0 when
    missing), and the estimated flow (300 when missing). *)
Definition area_of (surfaceArea : value) : num :=
  ToNumber (or_else (opt_topSqFt surfaceArea) (VNum (Fin 0))).

Definition flow_of (volumeGallons : num) : num :=
  num_or (EquipmentRecommender.estimateFilterFlow volumeGallons) (Fin 300).

Definition observed (c : Category) (volumeGallons : num) (surfaceArea : value) : num :=
  match c with
  | Filter | Heater | Chiller | Thermometer | CirculationPump => volumeGallons
  | AirPump | ATO => area_of surfaceArea
  | UVSterilizer => flow_of volumeGallons
  end.

(** One category follows the lookup rule: its entry is the text of the
    first band whose bound is at least the observed value, and it is not
    the placeholder. *)
Definition selects_first_band (c : Category) (volumeGallons : num)
    (surfaceArea : value) (r : EquipmentRecommender.Recommendations) : Prop :=
  exists band,
    first_band (table c) (observed c volumeGallons surfaceArea) = Some band
    /\ entry c r = EquipmentStrategy.recommendation band
    /\ entry c r <> "--"%string.

(** The entry starts with the text of the band the lookup rule selects. *)
Definition starts_with_first_band (c : Category) (volumeGallons : num)
    (surfaceArea : value) (r : EquipmentRecommender.Recommendations) : Prop :=
  exists band,
    first_band (table c) (observed c volumeGallons surfaceArea) = Some band
    /\ String.prefix (EquipmentStrategy.recommendation band) (entry c r) = true.

(** The UV sterilizer entry as the document describes it: looked up with
    the flow [4 * volumeGallons]. *)
Definition uv_by_estimate (volumeGallons : num)
    (r : EquipmentRecommender.Recommendations) : Prop :=
  exists band,
    first_band (table UVSterilizer) (mul (Fin 4) volumeGallons) = Some band
    /\ EquipmentRecommender.uvSterilizer r = EquipmentStrategy.recommendation band.

(** The circulation pump entry as the document describes it. *)
Definition circulationSuffix : string :=
  " - consider multiple units for even flow in long tanks".

Definition circulation_by_spec (volumeGallons length width : num) : string :=
  let base := lookup_text (table CirculationPump) volumeGallons in
  if gtb length (mul width (Fin 1.5)) then (base ++ circulationSuffix)%string
  else base.

(** The filter entry as the document describes it: the band text, replaced
    or extended by the first of the three area rules that applies. *)
Definition filter_by_spec (volumeGallons area : num) : string :=
  let base := lookup_text (table Filter) volumeGallons in
  if ltb area (Fin 1.5) && ltb volumeGallons (Fin 20) then
    "5-10 GPH sponge filter ideal for shallow tanks with small surface area"%string
  else if gtb area (Fin 6) then
    (base ++ " + surface skimmer for large surface area")%string
  else if ltb area (Fin 3) && gtb volumeGallons (Fin 30) then
    (base ++ " - consider adding powerhead for better circulation in tall/deep tanks")%string
  else base.

(** ** Dimension search *)

(** The reference tank the document asks the 20 gallon search to find. *)
Definition twentyGallonLong : Preset.t := Preset.Build_t "20 Gallon Long" 30 12 12 20.

Definition has_dimensions_of (r : DimensionFinder.Result) (p : Preset.t) : Prop :=
  inject_Z (DimensionFinder.width r) == Preset.width p
  /\ inject_Z (DimensionFinder.length r) == Preset.length p
  /\ inject_Z (DimensionFinder.height r) == Preset.height p.

Definition includes_preset (results : list DimensionFinder.Result) (p : Preset.t) : Prop :=
  exists r, In r results /\ has_dimensions_of r p.

(** Whether a value is on the default grid of widths and lengths. *)
Definition on_grid (q : Q) : bool :=
  match DimensionFinder.getDimensionRange DimensionFinder.minDimension
          DimensionFinder.maxDimension with
  | Some grid => existsb (Qeq_bool q) grid
  | None => false
  end.

(** The checks made on an entry of the 20 gallon search: no dimension is
    30, and the percent difference recorded is that of the entry's own
    volume, printed with one decimal. *)
Definition entry_checks (target : Q) (r : DimensionFinder.Result) : bool :=
  negb (DimensionFinder.width r =? 30)%Z
  && negb (DimensionFinder.length r =? 30)%Z
  && negb (DimensionFinder.height r =? 30)%Z
  && String.eqb (DimensionFinder.percentDifference r)
       (toFixed1
          (DimensionFinder.percentDifferenceOf target
             (inject_Z (DimensionFinder.length r))
             (inject_Z (DimensionFinder.width r))
             (inject_Z (DimensionFinder.height r)))).

(** Whether the separator of the keys occurs in a text. *)
Fixpoint has_x (s : string) : bool :=
  match s with
  | EmptyString => false
  | String c s' => Ascii.eqb c "x" || has_x s'
  end.

End Spec.

(* ================================================================== *)
(** * Notions for the laws of the code                                 *)
(* ================================================================== *)

Module Notions.

(** The step the range of dimensions takes after a value. *)
Definition step_after (current : Q) : Q :=
  if JS.Qlt_bool current 24 then 2
  else if JS.Qlt_bool current 48 then 4
  else 6.

(** The values a run of the loop of [getDimensionRange] appends: a chain
    from [current] in which each value is the one before plus its step,
    all within the maximum, and which stops only when the next value
    would exceed the maximum. *)
Inductive chain (max : Q) : Q -> list Q -> Prop :=
| chain_stop current : max < current -> chain max current []
| chain_next current rest :
    current <= max ->
    chain max (current + step_after current) rest ->
    chain max current (current :: rest).

(** A text that does not go on with a digit. *)
Definition no_leading_digit (s : string) : Prop :=
  match s with
  | String c _ => JS.digit_of c = None
  | EmptyString => True
  end.

(** The number the comparator of the sort reads from an entry. *)
Definition shown_difference (r : DimensionFinder.Result) : JS.num :=
  JS.parseFloat (DimensionFinder.percentDifference r).

(** One entry is shown no farther from the target than another. *)
Definition no_farther (a b : DimensionFinder.Result) : Prop :=
  JS.leb (shown_difference a) (shown_difference b) = true.

(** The names every object inherits from [Object.prototype]: looked up
    in an object literal they are found, with a value of the prototype. *)
Definition inherited_names : list string :=
  [ "constructor"; "hasOwnProperty"; "isPrototypeOf"; "propertyIsEnumerable";
    "toLocaleString"; "toString"; "valueOf"; "__proto__"; "__defineGetter__";
    "__defineSetter__"; "__lookupGetter__"; "__lookupSetter__" ]%string.

(** The rounded triple an entry lists. *)
Definition triple (r : DimensionFinder.Result) : Z * Z * Z :=
  (DimensionFinder.width r, DimensionFinder.length r, DimensionFinder.height r).

End Notions.

(* ================================================================== *)
(** * TankCalculator: volume and unit conversion                       *)
(* ================================================================== *)

Section TankCalculatorFacts.

Import JS.
Import TankCalculator.

Lemma calculateVolume_cubic_inches (length width height : Q) :
  calculateVolume length width height
  == length * width * height * 16.387064 / 1000.
Proof.
  unfold calculateVolume, CONVERSIONS.INCHES_TO_CM. field.
Qed.

(** C1.  [calculateVolume] returns [(length*2.54) * (width*2.54) *
    (height*2.54) / 1000] for all finite dimensions, the positive ones
    included.  For the 48 x 24 x 24 inch tank the volume lies within 0.05
    of 453.1 liters and prints as 453.1, and its conversion to gallons
    lies within 0.05 of 119.7 and prints as 119.7. *)
Theorem calculateVolume_formula_and_scenario :
  (forall length width height : Q,
      calculateVolume length width height
      == (length * 2.54) * (width * 2.54) * (height * 2.54) / 1000)
  /\ (453.05 <= calculateVolume 48 24 24 /\ calculateVolume 48 24 24 < 453.15)
  /\ toFixed1 (Fin (calculateVolume 48 24 24)) = "453.1"%string
  /\ (119.65 <= convertToGallons (calculateVolume 48 24 24)
      /\ convertToGallons (calculateVolume 48 24 24) < 119.75)
  /\ toFixed1 (Fin (convertToGallons (calculateVolume 48 24 24))) = "119.7"%string.
Proof.
  split; [intros; reflexivity|].
  repeat split; try (apply Qle_bool_iff; vm_compute; reflexivity);
    try (apply Qlt_alt; vm_compute; reflexivity);
    vm_compute; reflexivity.
Qed.

(** Both conversions are built on the one constant 0.264172. *)
Lemma convertToLiters_divides (g : Q) :
  convertToLiters g == g / 0.264172.
Proof. reflexivity. Qed.

(** C5, counterexample.  At one gallon the round trip returns exactly one
    gallon: it is not scaled by the product of the two constants. *)
Lemma roundtrip_scaled_fails_at_one : ~ Spec.roundtrip_scaled 1.
Proof.
  intros [Hne _]. apply Hne. vm_compute. reflexivity.
Qed.

(** C5, as amended.  [convertToGallons] multiplies by 0.264172 and
    [convertToLiters] divides by the same constant, so in exact arithmetic
    the round trip is the identity, in both directions.  The second
    constant 3.78541 is not the reciprocal of the first (their product is
    0.99999933052) and neither conversion reads it. *)
Theorem conversion_roundtrip_exact :
  (forall g : Q, convertToGallons (convertToLiters g) == g)
  /\ (forall l : Q, convertToLiters (convertToGallons l) == l)
  /\ (forall l : Q, convertToGallons l == l * 0.264172)
  /\ (forall g : Q, convertToLiters g == g / 0.264172)
  /\ CONVERSIONS.GALLONS_TO_LITERS * CONVERSIONS.LITERS_TO_GALLONS == 0.99999933052
  /\ ~ CONVERSIONS.GALLONS_TO_LITERS * CONVERSIONS.LITERS_TO_GALLONS == 1.
Proof.
  repeat split.
  - intros g. unfold convertToGallons, convertToLiters, CONVERSIONS.GALLONS_TO_LITERS. field.
  - intros l. unfold convertToGallons, convertToLiters, CONVERSIONS.GALLONS_TO_LITERS. field.
  - intros H. vm_compute in H. discriminate H.
Qed.

End TankCalculatorFacts.

(* ================================================================== *)
(** * GlassRecommender: thickness and label                            *)
(* ================================================================== *)

Section GlassRecommenderFacts.

Import JS.
Import GlassRecommender.

(** A span over 60 is a span over 48. *)
Lemma gtb_60_48 (span : num) :
  gtb span (Fin 60) = true -> gtb span (Fin 48) = true.
Proof.
  destruct span as [q| | |]; cbn; try (intros H; discriminate H); auto.
  unfold Qlt_bool. rewrite !negb_true_iff.
  intros H. destruct (Qle_bool q 48) eqn:E; [|reflexivity].
  apply Qle_bool_iff in E.
  assert (q <= 60) as H' by lra.
  apply Qle_bool_iff in H'. congruence.
Qed.

(** The step function never leaves the range of the table. *)
Lemma getThicknessForDimensions_range (depth panelSize : num) :
  (3 <= getThicknessForDimensions depth panelSize <= 12)%Z.
Proof.
  unfold getThicknessForDimensions.
  repeat match goal with |- context [if ?c then _ else _] => destruct c end; lia.
Qed.

(** C3.  The thickness is [min (base + penalties) 12] with the base read
    from the depth steps 12, 15, 24, 30, 36 and two units added past a span
    of 48 and two more past 60.  At depth 36 and span 72 the base is 10,
    the penalties are 4, the capped result is 12; the label of such a tank
    is the 12mm+ row and the safety note asks for professional
    consultation. *)
Theorem getThicknessForDimensions_is_capped_sum :
  (forall depth span : num,
      getThicknessForDimensions depth span
      = Z.min (Spec.base depth + Spec.penalties span) Spec.maxThickness)
  /\ Spec.base (Fin 36) = 10%Z
  /\ Spec.penalties (Fin 72) = 4%Z
  /\ getThicknessForDimensions (Fin 36) (Fin 72) = 12%Z
  /\ getRecommendation (Fin 72) (Fin 24) (Fin 36) = "12mm+ (extra large tanks)"%string
  /\ getRecommendation (Fin 24) (Fin 72) (Fin 36) = "12mm+ (extra large tanks)"%string
  /\ String.prefix "12mm+" (getRecommendation (Fin 72) (Fin 24) (Fin 36)) = true
  /\ safetyNote (getDetailedRecommendation (Fin 72) (Fin 24) (Fin 36))
     = ("Consider professional consultation for tanks over 36" ++ dquote
          ++ " deep or panels over 5' long.")%string.
Proof.
  split.
  - intros depth span.
    unfold getThicknessForDimensions, Spec.base, Spec.penalties, Spec.maxThickness.
    destruct (leb depth (Fin 12)), (leb depth (Fin 15)), (leb depth (Fin 24)),
      (leb depth (Fin 30)), (leb depth (Fin 36)),
      (gtb span (Fin 48)), (gtb span (Fin 60)); reflexivity.
  - repeat split; vm_compute; reflexivity.
Qed.

(** C9, counterexample.  A 72 x 24 tank of depth 12 has the step value 7,
    which no row carries, yet its label is the 10mm row and not the last
    description. *)
Lemma label_by_step_value_fails :
  getThicknessForDimensions (Fin 12) (Math_max (Fin 72) (Fin 24)) = 7%Z
  /\ Spec.row_of 7 = None
  /\ getRecommendation (Fin 72) (Fin 24) (Fin 12) = "10mm (large tanks)"%string
  /\ getRecommendation (Fin 72) (Fin 24) (Fin 12)
     <> Spec.label_by_step_value (Fin 72) (Fin 24) (Fin 12).
Proof.
  repeat split; try (vm_compute; reflexivity).
  vm_compute. intros H. discriminate H.
Qed.

(** C9, as amended.  The label is the description of the row that carries
    the step-function value whenever a row does; when none does, the label
    is the 10mm row for a span over 60 (the step value, 7 or 9, is raised
    to 10 there) and the last description otherwise (step value 7). *)
Theorem getRecommendation_label (length width height : num) :
  getRecommendation length width height
  = Spec.label_with_panel_guard length width height
  /\ match Spec.row_of (getThicknessForDimensions height (Math_max length width)) with
     | Some rec =>
         thickness rec = getThicknessForDimensions height (Math_max length width)
     | None =>
         if gtb (Math_max length width) (Fin 60)
         then getThicknessForDimensions height (Math_max length width) = 7%Z
              \/ getThicknessForDimensions height (Math_max length width) = 9%Z
         else getThicknessForDimensions height (Math_max length width) = 7%Z
     end.
Proof.
  unfold getRecommendation, Spec.label_with_panel_guard, Spec.row_of.
  generalize (Math_max length width) as span. intros span.
  unfold getThicknessForDimensions.
  pose proof (gtb_60_48 span) as Hspan.
  destruct (gtb span (Fin 60)) eqn:H60;
    [rewrite (Hspan eq_refl) | destruct (gtb span (Fin 48)) eqn:H48];
    destruct (leb height (Fin 12)), (leb height (Fin 15)), (leb height (Fin 24)),
      (leb height (Fin 30)), (leb height (Fin 36));
    vm_compute; (split; [reflexivity | auto]).
Qed.

End GlassRecommenderFacts.

(* ================================================================== *)
(** * Equipment recommendations                                        *)
(* ================================================================== *)

Section EquipmentFacts.

Import JS.
Import EquipmentStrategy.
Import EquipmentStrategyFactory.
Import EquipmentRecommender.

(** Every value reaches the unbounded band unless it is [NaN]. *)
Lemma leb_PInf (x : num) : leb (Fin 0) x = true -> leb x PInf = true.
Proof. destruct x; cbn; auto. Qed.

Lemma heater_entry (v : num) :
  getHeaterRecommendation (VNum v) = Some (Spec.lookup_text heaterRecommendations v).
Proof. reflexivity. Qed.

Lemma chiller_entry (v : num) :
  getChillerRecommendation (VNum v) = Some (Spec.lookup_text chillerRecommendations v).
Proof. reflexivity. Qed.

Lemma thermometer_entry (v : num) :
  getThermometerRecommendation (VNum v)
  = Some (Spec.lookup_text thermometerRecommendations v).
Proof. reflexivity. Qed.

Lemma airPump_entry (sa : value) :
  getAirPumpRecommendation sa
  = Some (Spec.lookup_text airPumpRecommendations (Spec.area_of sa)).
Proof. reflexivity. Qed.

Lemma ato_entry (sa : value) :
  getATORcommendation sa
  = Some (Spec.lookup_text atoRecommendations (Spec.area_of sa)).
Proof. reflexivity. Qed.

Lemma uvSterilizer_entry (flow : num) :
  getUVSterilizerRecommendation (VNum flow)
  = Some (Spec.lookup_text uvSterilizerRecommendations (num_or flow (Fin 300))).
Proof.
  unfold getUVSterilizerRecommendation, num_or, or_else.
  cbn [truthy]. destruct (num_truthy flow) eqn:E.
  - unfold getRecommendation.
    change (strategies !! "uvSterilizer"%string) with (Some createUVSterilizerStrategy).
    unfold EquipmentStrategy.getRecommendation. cbn.
    unfold or_else. cbn [truthy]. rewrite E. reflexivity.
  - reflexivity.
Qed.

Lemma circulationPump_entry (v length width : num) :
  getCirculationPumpRecommendation (VNum v) (VNum length) (VNum width)
  = Some (Spec.lookup_text circulationPumpRecommendations v).
Proof. reflexivity. Qed.


(** The texts the filter extractor can build are no numeric literals. *)
Lemma filterExtractor_text (params : list value) :
  exists s, filterExtractor params = VStr s /\ StringToNumber s = NaN.
Proof.
  unfold filterExtractor.
  generalize (index params 0) as volumeGallons.
  generalize (or_else (opt_topSqFt (index params 1)) (VNum (Fin 0))) as topAreaFt.
  intros topAreaFt volumeGallons.
  cbn [List.find filterRecommendations volumeBand maxVolume bound_value].
  destruct (value_ltb topAreaFt (Fin 1.5) && value_ltb volumeGallons (Fin 20));
    [eexists; split; [reflexivity | vm_compute; reflexivity] |].
  destruct (value_gtb topAreaFt (Fin 6));
    [| destruct (value_ltb topAreaFt (Fin 3) && value_gtb volumeGallons (Fin 30))];
    repeat match goal with
           | |- context [value_leb volumeGallons ?b] =>
               destruct (value_leb volumeGallons b)
           end;
    eexists; (split; [reflexivity | vm_compute; reflexivity]).
Qed.

Lemma filter_entry (volumeGallons surfaceArea : value) :
  getFilterRecommendation volumeGallons surfaceArea
  = Some "200+ GPH canister filter or sump system"%string.
Proof.
  unfold getFilterRecommendation, getRecommendation.
  change (strategies !! "filter"%string) with (Some createFilterStrategy).
  unfold EquipmentStrategy.getRecommendation.
  cbn [createFilterStrategy new type criteriaExtractor recommendations].
  destruct (filterExtractor_text [volumeGallons; surfaceArea]) as (s & -> & Hs).
  unfold value_leb. cbn [ToNumber]. rewrite Hs. reflexivity.
Qed.

Lemma getAllRecommendations_entries
    (length width height volumeGallons : num) (surfaceArea : value) :
  getAllRecommendations length width height volumeGallons surfaceArea
  = Some {| filter := "200+ GPH canister filter or sump system";
            heater := Spec.lookup_text heaterRecommendations volumeGallons;
            chiller := Spec.lookup_text chillerRecommendations volumeGallons;
            uvSterilizer :=
              Spec.lookup_text uvSterilizerRecommendations (Spec.flow_of volumeGallons);
            airPump := Spec.lookup_text airPumpRecommendations (Spec.area_of surfaceArea);
            thermometer := Spec.lookup_text thermometerRecommendations volumeGallons;
            circulationPump :=
              Spec.lookup_text circulationPumpRecommendations volumeGallons;
            ato := Spec.lookup_text atoRecommendations (Spec.area_of surfaceArea) |}.
Proof.
  unfold getAllRecommendations.
  rewrite filter_entry, heater_entry, chiller_entry, uvSterilizer_entry,
    airPump_entry, thermometer_entry, circulationPump_entry, ato_entry.
  reflexivity.
Qed.


(** ** The lookup rule on the eight tables *)

Lemma prefix_refl (s : string) : String.prefix s s = true.
Proof.
  induction s as [|c s IH]; cbn; [reflexivity|].
  destruct (ascii_dec c c); [exact IH | contradiction].
Qed.

Lemma leb_Fin_PInf (q : Q) : leb (Fin q) PInf = true.
Proof. reflexivity. Qed.

Lemma leb_Fin_compat (x y : Q) (b : num) : x == y -> leb (Fin x) b = leb (Fin y) b.
Proof.
  intros H. destruct b; cbn; try reflexivity. now rewrite H.
Qed.

(** Every table ends in an unbounded band: a value that is not [NaN]
    finds a band, and no text of a table is the placeholder. *)
Lemma first_band_exists (c : Spec.Category) (x : num) :
  leb x PInf = true ->
  exists band,
    Spec.first_band (Spec.table c) x = Some band
    /\ Spec.lookup_text (Spec.table c) x = recommendation band
    /\ recommendation band <> "--"%string.
Proof.
  intros Hx. unfold Spec.lookup_text, Spec.first_band.
  destruct c; cbn [Spec.table List.find filterRecommendations heaterRecommendations
      chillerRecommendations uvSterilizerRecommendations airPumpRecommendations
      thermometerRecommendations circulationPumpRecommendations atoRecommendations];
    repeat match goal with
           | |- context [leb x (Spec.bound ?b)] =>
               change (Spec.bound b) with PInf; rewrite Hx
           | |- context [leb x (Spec.bound ?b)] =>
               let q := eval cbv in (Spec.bound b) in
               change (Spec.bound b) with q;
               destruct (leb x q)
           end;
    eexists; (split; [reflexivity | split; [reflexivity | cbn; discriminate]]).
Qed.

Lemma area_of_object (a : TankCalculator.SurfaceArea) :
  exists q, Spec.area_of (surfaceAreaObject a) = Fin q.
Proof.
  unfold Spec.area_of.
  change (opt_topSqFt (surfaceAreaObject a))
    with (VNum (Fin (TankCalculator.topSqFt a))).
  unfold or_else. cbn [truthy num_truthy].
  destruct (negb (Qeq_bool (TankCalculator.topSqFt a) 0)); eexists; reflexivity.
Qed.

Lemma estimateFilterFlow_Fin (q : Q) :
  estimateFilterFlow (Fin q) = Fin ((q * 3 + q * 5) / 2).
Proof. reflexivity. Qed.

Lemma flow_of_not_NaN (v : num) :
  leb (Fin 0) v = true -> leb (Spec.flow_of v) PInf = true.
Proof.
  destruct v as [q| | |]; intros H; try discriminate H.
  - unfold Spec.flow_of, num_or. rewrite estimateFilterFlow_Fin.
    destruct (num_truthy _); reflexivity.
  - reflexivity.
Qed.

(** A positive volume has the estimated flow [4 * volume], which is not
    replaced by the default. *)
Lemma flow_of_positive (q : Q) :
  0 < q -> exists f, Spec.flow_of (Fin q) = Fin f /\ f == 4 * q.
Proof.
  intros Hq. exists ((q * 3 + q * 5) / 2). split; [|field].
  assert ((q * 3 + q * 5) / 2 == 4 * q) as H4 by field.
  assert (Qeq_bool ((q * 3 + q * 5) / 2) 0 = false) as E0.
  { destruct (Qeq_bool ((q * 3 + q * 5) / 2) 0) eqn:E; [|reflexivity].
    apply Qeq_bool_eq in E. rewrite H4 in E. lra. }
  unfold Spec.flow_of, num_or. rewrite estimateFilterFlow_Fin.
  cbn [num_truthy]. rewrite E0. reflexivity.
Qed.

Lemma first_band_compat (bands : list Band) (x y : Q) :
  x == y -> Spec.first_band bands (Fin x) = Spec.first_band bands (Fin y).
Proof.
  intros H. unfold Spec.first_band.
  induction bands as [|b bands IH]; cbn [List.find]; [reflexivity|].
  rewrite (leb_Fin_compat x y _ H), IH. reflexivity.
Qed.


(** ** The claims on the equipment entries *)

(** C4, counterexample.  Two strategies do not return the text of the
    band the lookup rule selects.  The circulation pump strategy, given a
    48 x 12 tank at the positions its extractor reads, returns the band
    text followed by its advice for long tanks.  The filter entry of a
    24 x 12 x 16 inch tank, with the volume (19.9 gallons) and the surface
    area the calculator gives, is the text of the last band although the
    volume lies in the first band. *)
Lemma lookup_rule_fails_for_composites :
  (Spec.first_band (Spec.table Spec.CirculationPump) (Fin 30)
   = Some (volumeBand (Fin 55) "400-800 GPH powerhead")
   /\ EquipmentStrategy.getRecommendation createCirculationPumpStrategy
        [VNum (Fin 30); VNull; VNull; VNum (Fin 48); VNum (Fin 12)]
      = Some "400-800 GPH powerhead - consider multiple units for even flow in long tanks"%string)
  /\ (let volumeGallons :=
        TankCalculator.convertToGallons (TankCalculator.calculateVolume 24 12 16) in
      let surfaceArea :=
        surfaceAreaObject (TankCalculator.calculateSurfaceArea 24 12 16) in
      exists r,
        getAllRecommendations (Fin 24) (Fin 12) (Fin 16) (Fin volumeGallons) surfaceArea
        = Some r
        /\ ~ Spec.selects_first_band Spec.Filter (Fin volumeGallons) surfaceArea r).
Proof.
  split; [split; vm_compute; reflexivity|].
  intros volumeGallons surfaceArea. eexists. split.
  - apply getAllRecommendations_entries.
  - intros (band & Hband & Htext & _).
    assert (Spec.first_band (Spec.table Spec.Filter)
              (Spec.observed Spec.Filter (Fin volumeGallons) surfaceArea)
            = Some (volumeBand (Fin 20) "10-20 GPH canister or small HOB filter"))
      as E by (vm_compute; reflexivity).
    rewrite E in Hband. apply (inj Some) in Hband. subst band.
    cbn in Htext. discriminate Htext.
Qed.

(** C4, as amended.  For a volume of at least zero and the surface-area
    object of the calculator, [getAllRecommendations] returns a complete
    set in which the heater, chiller, UV sterilizer, air pump, thermometer
    and auto-top-off entries are each the text of the first band whose
    bound is at least the observed value, the circulation pump entry
    starts with the text of that band, and none of the eight entries is
    the placeholder.  At 50 gallons the heater entry is the 200-300W
    text. *)
Theorem recommendations_follow_lookup_rule
    (length width height volumeGallons : num) (a : TankCalculator.SurfaceArea) :
  leb (Fin 0) volumeGallons = true ->
  exists r,
    getAllRecommendations length width height volumeGallons (surfaceAreaObject a)
    = Some r
    /\ (forall c, c <> Spec.Filter -> c <> Spec.CirculationPump ->
        Spec.selects_first_band c volumeGallons (surfaceAreaObject a) r)
    /\ Spec.starts_with_first_band Spec.CirculationPump volumeGallons
         (surfaceAreaObject a) r
    /\ (forall c, Spec.entry c r <> "--"%string)
    /\ (forall length' width' height' surfaceArea',
        exists r',
          getAllRecommendations length' width' height' (Fin 50) surfaceArea' = Some r'
          /\ heater r' = "200-300W submersible heater"%string).
Proof.
  intros Hv.
  assert (forall c, leb (Spec.observed c volumeGallons (surfaceAreaObject a)) PInf = true)
    as Hobs.
  { intros c. destruct (area_of_object a) as [q Hq].
    destruct c; cbn [Spec.observed]; rewrite ?Hq;
      auto using leb_PInf, flow_of_not_NaN, leb_Fin_PInf. }
  eexists. split; [apply getAllRecommendations_entries|].
  split; [|split; [|split]].
  - intros c Hf Hc.
    destruct (first_band_exists c _ (Hobs c)) as (band & Hband & Htext & Hne).
    exists band. split; [exact Hband|].
    assert (Spec.entry c
              {| filter := "200+ GPH canister filter or sump system";
                 heater := Spec.lookup_text heaterRecommendations volumeGallons;
                 chiller := Spec.lookup_text chillerRecommendations volumeGallons;
                 uvSterilizer :=
                   Spec.lookup_text uvSterilizerRecommendations
                     (Spec.flow_of volumeGallons);
                 airPump :=
                   Spec.lookup_text airPumpRecommendations
                     (Spec.area_of (surfaceAreaObject a));
                 thermometer :=
                   Spec.lookup_text thermometerRecommendations volumeGallons;
                 circulationPump :=
                   Spec.lookup_text circulationPumpRecommendations volumeGallons;
                 ato :=
                   Spec.lookup_text atoRecommendations
                     (Spec.area_of (surfaceAreaObject a)) |}
            = Spec.lookup_text (Spec.table c)
                (Spec.observed c volumeGallons (surfaceAreaObject a))) as He.
    { destruct c; try reflexivity; contradiction. }
    rewrite He, Htext. split; [reflexivity | exact Hne].
  - destruct (first_band_exists Spec.CirculationPump _ (Hobs Spec.CirculationPump))
      as (band & Hband & Htext & _).
    exists band. split; [exact Hband|].
    cbn [Spec.entry circulationPump].
    change circulationPumpRecommendations with (Spec.table Spec.CirculationPump).
    change volumeGallons
      with (Spec.observed Spec.CirculationPump volumeGallons (surfaceAreaObject a)) at 1.
    rewrite Htext. apply prefix_refl.
  - intros c.
    destruct c; cbn [Spec.entry filter heater chiller uvSterilizer airPump
                       thermometer circulationPump ato];
      try discriminate;
      match goal with
      | |- Spec.lookup_text ?t ?x <> _ =>
          let c' := match t with
                    | heaterRecommendations => constr:(Spec.Heater)
                    | chillerRecommendations => constr:(Spec.Chiller)
                    | uvSterilizerRecommendations => constr:(Spec.UVSterilizer)
                    | airPumpRecommendations => constr:(Spec.AirPump)
                    | thermometerRecommendations => constr:(Spec.Thermometer)
                    | circulationPumpRecommendations => constr:(Spec.CirculationPump)
                    | atoRecommendations => constr:(Spec.ATO)
                    end in
          destruct (first_band_exists c' _ (Hobs c')) as (band & _ & Htext & Hne);
          cbn [Spec.table Spec.observed] in Htext; rewrite Htext; exact Hne
      end.
  - intros length' width' height' surfaceArea'.
    eexists. split; [apply getAllRecommendations_entries|]. reflexivity.
Qed.

(** The statement at the 50 gallon tank of the heater scenario. *)
Lemma recommendations_follow_lookup_rule_witness :
  leb (Fin 0) (Fin 50) = true
  /\ exists r,
      getAllRecommendations (Fin 36) (Fin 18) (Fin 18) (Fin 50)
        (surfaceAreaObject (TankCalculator.calculateSurfaceArea 36 18 18))
      = Some r
      /\ heater r = "200-300W submersible heater"%string
      /\ Spec.entry Spec.Filter r <> "--"%string.
Proof.
  split; [reflexivity|].
  destruct (recommendations_follow_lookup_rule (Fin 36) (Fin 18) (Fin 18) (Fin 50)
              (TankCalculator.calculateSurfaceArea 36 18 18) eq_refl)
    as (r & Hr & _ & _ & Hne & _).
  exists r. split; [exact Hr|]. split; [|apply Hne].
  rewrite getAllRecommendations_entries in Hr. injection Hr as <-. reflexivity.
Defined.


(** C6.  Evaluation of the code: through [getAllRecommendations] the
    circulation pump entry is the plain band text for every tank, also for
    the 48 x 12 x 12 inch tank (29.9 gallons), whose length exceeds 1.5
    times its width and for which the document asks for the suffix.  The strategy's extractor reads
    the positions 0, 3 and 4 of the arguments, while the recommender passes
    length and width at the positions 2 and 3: the comparison is made
    between the width and [undefined * 1.5], which is never true.  Called
    with length and width at the positions 3 and 4 the same strategy does
    append the suffix. *)
Theorem circulationPump_entry_has_no_suffix :
  (forall (length width height volumeGallons : num) (surfaceArea : value),
      exists r,
        getAllRecommendations length width height volumeGallons surfaceArea = Some r
        /\ circulationPump r
           = Spec.lookup_text circulationPumpRecommendations volumeGallons)
  /\ (let volumeGallons :=
        TankCalculator.convertToGallons (TankCalculator.calculateVolume 48 12 12) in
      exists r,
        getAllRecommendations (Fin 48) (Fin 12) (Fin 12) (Fin volumeGallons)
          (surfaceAreaObject (TankCalculator.calculateSurfaceArea 48 12 12))
        = Some r
        /\ circulationPump r = "400-800 GPH powerhead"%string
        /\ gtb (Fin 48) (mul (Fin 12) (Fin 1.5)) = true
        /\ Spec.circulation_by_spec (Fin volumeGallons) (Fin 48) (Fin 12)
           = "400-800 GPH powerhead - consider multiple units for even flow in long tanks"%string)
  /\ (forall volumeGallons length width : value,
        criteriaExtractor createCirculationPumpStrategy
          [volumeGallons; VNull; length; width]
        = VArr [volumeGallons; width; VUndefined])
  /\ EquipmentStrategy.getRecommendation createCirculationPumpStrategy
       [VNum (Fin 30); VNull; VNull; VNum (Fin 48); VNum (Fin 12)]
     = Some "400-800 GPH powerhead - consider multiple units for even flow in long tanks"%string.
Proof.
  split; [|split; [|split]].
  - intros. eexists. split; [apply getAllRecommendations_entries | reflexivity].
  - intros volumeGallons. eexists. split; [apply getAllRecommendations_entries|].
    split; [|split]; vm_compute; reflexivity.
  - intros. reflexivity.
  - vm_compute. reflexivity.
Qed.

(** The extractor handed to the filter strategy builds the composite text
    of the document. *)
Lemma filterExtractor_builds_composite (volumeGallons : num) (surfaceArea : value) :
  filterExtractor [VNum volumeGallons; surfaceArea]
  = VStr (Spec.filter_by_spec volumeGallons (Spec.area_of surfaceArea)).
Proof.
  unfold filterExtractor, Spec.filter_by_spec, Spec.area_of, Spec.lookup_text,
    Spec.first_band, value_ltb, value_gtb, value_leb.
  cbn [index nth ToNumber].
  generalize (ToNumber (or_else (opt_topSqFt surfaceArea) (VNum (Fin 0)))) as area.
  intros area.
  cbn [Spec.table List.find filterRecommendations].
  repeat match goal with
         | |- context [leb volumeGallons ?b] =>
             lazymatch b with
             | Fin _ => fail
             | PInf => fail
             | _ => let q := eval cbv in b in change b with q
             end
         end.
  destruct (leb volumeGallons (Fin 20)); [reflexivity|].
  destruct (leb volumeGallons (Fin 40)); [reflexivity|].
  destruct (leb volumeGallons (Fin 75)); [reflexivity|].
  destruct (leb volumeGallons (Fin 125)); [reflexivity|].
  destruct (leb volumeGallons (Fin 200)); [reflexivity|].
  destruct (leb volumeGallons PInf); reflexivity.
Qed.

(** C8.  Evaluation of the code: the filter entry is the text of the last
    band for every volume and every surface area.  The composite text is
    built by the strategy's extractor, but [getRecommendation] takes the
    extractor's result for the criterion value: the text compares as [NaN]
    with every bound, no band matches, and the fall-back to the last band
    applies.  For the 24 x 12 x 16 inch tank (19.9 gallons, top area 2
    square feet) the document asks for the first band's text. *)
Theorem filter_entry_is_last_band :
  (forall (length width height volumeGallons : num) (surfaceArea : value),
      exists r,
        getAllRecommendations length width height volumeGallons surfaceArea = Some r
        /\ filter r = "200+ GPH canister filter or sump system"%string)
  /\ (forall (volumeGallons : num) (surfaceArea : value),
        criteriaExtractor createFilterStrategy [VNum volumeGallons; surfaceArea]
        = VStr (Spec.filter_by_spec volumeGallons (Spec.area_of surfaceArea)))
  /\ (let volumeGallons :=
        TankCalculator.convertToGallons (TankCalculator.calculateVolume 24 12 16) in
      let surfaceArea :=
        surfaceAreaObject (TankCalculator.calculateSurfaceArea 24 12 16) in
      exists r,
        getAllRecommendations (Fin 24) (Fin 12) (Fin 16) (Fin volumeGallons) surfaceArea
        = Some r
        /\ filter r = "200+ GPH canister filter or sump system"%string
        /\ Spec.filter_by_spec (Fin volumeGallons) (Spec.area_of surfaceArea)
           = "10-20 GPH canister or small HOB filter"%string).
Proof.
  split; [|split].
  - intros. eexists. split; [apply getAllRecommendations_entries | reflexivity].
  - intros. apply filterExtractor_builds_composite.
  - intros volumeGallons surfaceArea. eexists.
    split; [apply getAllRecommendations_entries|].
    split; [reflexivity | vm_compute; reflexivity].
Qed.

(** C10, counterexample.  At volume zero the estimated flow is zero, which
    is replaced by the default 300: the entry is the 25-36W text of the
    band up to 400 and not the text of the band of flow [4 * 0]. *)
Lemma uv_by_estimate_fails_at_zero :
  exists r,
    getAllRecommendations (Fin 0) (Fin 10) (Fin 12) (Fin 0)
      (surfaceAreaObject (TankCalculator.calculateSurfaceArea 0 10 12))
    = Some r
    /\ uvSterilizer r = "25-36W UV sterilizer"%string
    /\ ~ Spec.uv_by_estimate (Fin 0) r.
Proof.
  eexists. split; [apply getAllRecommendations_entries|].
  split; [vm_compute; reflexivity|].
  intros (band & Hband & Htext).
  assert (Spec.first_band (Spec.table Spec.UVSterilizer) (mul (Fin 4) (Fin 0))
          = Some (flowBand (Fin 100) "5-9W UV sterilizer"))
    as E by (vm_compute; reflexivity).
  rewrite E in Hband. apply (inj Some) in Hband. subst band.
  cbn in Htext. discriminate Htext.
Qed.

(** C10, as amended.  For a positive volume the UV sterilizer entry of
    [getAllRecommendations] is the text of the first flow band whose bound
    is at least [4 * volumeGallons], the mean of three and five volumes.
    At volume zero the estimate is zero and the default flow 300 takes its
    place. *)
Theorem uvSterilizer_uses_estimated_flow
    (length width height : num) (surfaceArea : value) (q : Q) :
  0 < q ->
  (exists f, estimateFilterFlow (Fin q) = Fin f
             /\ f == (q * 3 + q * 5) / 2 /\ f == 4 * q)
  /\ (exists r,
        getAllRecommendations length width height (Fin q) surfaceArea = Some r
        /\ Spec.uv_by_estimate (Fin q) r)
  /\ (exists r0,
        getAllRecommendations length width height (Fin 0) surfaceArea = Some r0
        /\ uvSterilizer r0 = Spec.lookup_text uvSterilizerRecommendations (Fin 300)
        /\ uvSterilizer r0 = "25-36W UV sterilizer"%string).
Proof.
  intros Hq. split; [|split].
  - exists ((q * 3 + q * 5) / 2).
    split; [apply estimateFilterFlow_Fin|]. split; [reflexivity | field].
  - eexists. split; [apply getAllRecommendations_entries|].
    destruct (flow_of_positive q Hq) as (f & Hf & Hf4).
    destruct (first_band_exists Spec.UVSterilizer (Fin f) (leb_Fin_PInf f))
      as (band & Hband & Htext & _).
    exists band. cbn [uvSterilizer]. rewrite Hf. split.
    + cbn [mul]. rewrite <- (first_band_compat _ f (4 * q) Hf4). exact Hband.
    + exact Htext.
  - eexists. split; [apply getAllRecommendations_entries|].
    split; reflexivity.
Qed.

(** The statement at the 50 gallon tank. *)
Lemma uvSterilizer_uses_estimated_flow_witness :
  0 < 50
  /\ exists r,
      getAllRecommendations (Fin 36) (Fin 18) (Fin 18) (Fin 50) VNull = Some r
      /\ Spec.uv_by_estimate (Fin 50) r.
Proof.
  split; [reflexivity|].
  exact (proj1 (proj2 (uvSterilizer_uses_estimated_flow
                         (Fin 36) (Fin 18) (Fin 18) VNull 50 eq_refl))).
Defined.

End EquipmentFacts.

(* ================================================================== *)
(** * DimensionFinder: the reverse search                              *)
(* ================================================================== *)

Section DimensionFinderFacts.

Import JS.
Import DimensionFinder.

(** ** The range loop ends *)

Lemma Qle_bool_false (x y : Q) : Qle_bool x y = false -> y < x.
Proof.
  intros H. apply Qnot_le_lt. intros H'. apply Qle_bool_iff in H'. congruence.
Qed.

(** One turn of the loop moves the running value up by at least two. *)
Lemma step_at_least_two (current : Q) :
  current + 2
  <= (if Qlt_bool current 24 then current + 2
      else if Qlt_bool current 48 then current + 4
      else current + 6).
Proof.
  destruct (Qlt_bool current 24), (Qlt_bool current 48); lra.
Qed.

Lemma Qfloor_plus_2 (q : Q) : Qfloor (q + 2) = (Qfloor q + 2)%Z.
Proof.
  destruct q as [n d]. unfold Qfloor, Qplus. cbn.
  rewrite Pos.mul_1_r, Z.mul_1_r, Z.div_add by lia. reflexivity.
Qed.

Lemma range_loop_enough (max : Q) (fuel : nat) :
  forall (range : list Q) (current : Q),
    (Z.to_nat (Qfloor (max - current) + 1) < fuel)%nat ->
    exists l, range_loop fuel range current max = Some (range ++ l).
Proof.
  induction fuel as [|fuel IH]; intros range current Hfuel; [lia|].
  cbn [range_loop]. destruct (Qle_bool current max) eqn:Hle.
  - apply Qle_bool_iff in Hle.
    pose proof (step_at_least_two current) as Hn.
    set (next := if Qlt_bool current 24 then _ else _) in *.
    assert (0 <= Qfloor (max - current))%Z as H0.
    { change 0%Z with (Qfloor 0). apply Qfloor_resp_le. lra. }
    assert (Qfloor (max - next) + 2 <= Qfloor (max - current))%Z as Hdec.
    { assert (max - next + 2 <= max - current) as Hq by lra.
      apply Qfloor_resp_le in Hq. rewrite Qfloor_plus_2 in Hq. exact Hq. }
    destruct (IH (range ++ [current]) next) as [l Hl]; [lia|].
    exists (current :: l). rewrite Hl, <- app_assoc. reflexivity.
  - exists []. rewrite app_nil_r. reflexivity.
Qed.

Lemma getDimensionRange_total (min max : Q) :
  exists l, getDimensionRange min max = Some l.
Proof.
  unfold getDimensionRange, range_fuel.
  destruct (range_loop_enough max (S (Z.to_nat (Qfloor (max - min) + 1))) [] min)
    as [l Hl]; [lia|].
  exists l. exact Hl.
Qed.


(** ** Sorting and the unique filter keep to the enumerated entries *)

Lemma insert_sorted_In (cmp : Result -> Result -> num) (x r : Result) (l : list Result) :
  In r (insert_sorted cmp x l) <-> r = x \/ In r l.
Proof.
  induction l as [|y l IH]; cbn [insert_sorted].
  - cbn. intuition.
  - destruct (gtb (cmp x y) (Fin 0)); cbn [In]; [rewrite IH|]; intuition.
Qed.

Lemma sort_In (cmp : Result -> Result -> num) (r : Result) (l : list Result) :
  In r (sort cmp l) <-> In r l.
Proof.
  unfold sort. induction l as [|x l IH]; cbn [fold_right In]; [reflexivity|].
  rewrite insert_sorted_In, IH. intuition.
Qed.

Lemma sort_length (cmp : Result -> Result -> num) (l : list Result) :
  List.length (sort cmp l) = List.length l.
Proof.
  assert (forall x s, List.length (insert_sorted cmp x s) = S (List.length s)) as Hins.
  { intros x s. induction s as [|y s IH]; cbn [insert_sorted]; [reflexivity|].
    destruct (gtb (cmp x y) (Fin 0)); cbn [List.length]; [rewrite IH|]; reflexivity. }
  unfold sort. induction l as [|x l IH]; cbn [fold_right List.length]; [reflexivity|].
  rewrite Hins, IH. reflexivity.
Qed.

Lemma unique_loop_In (maxResults : Z) (results : list Result) :
  forall (unique : list Result) (seen : gset string) (r : Result),
    In r (unique_loop results unique seen maxResults) ->
    In r unique \/ In r results.
Proof.
  induction results as [|x results IH]; intros unique seen r; cbn [unique_loop].
  - auto.
  - destruct (bool_decide (key x ∈ seen)).
    + intros H. destruct (IH _ _ _ H); cbn [In]; auto.
    + destruct (maxResults <=? _)%Z.
      * rewrite in_app_iff. cbn [In]. intuition.
      * intros H. destruct (IH _ _ _ H) as [H'|H']; cbn [In]; auto.
        apply in_app_iff in H'. cbn [In] in H'. intuition.
Qed.

Lemma getUniqueResults_In (results : list Result) (maxResults : Z) (r : Result) :
  In r (getUniqueResults results maxResults) -> In r results.
Proof.
  intros H. destruct (unique_loop_In _ _ _ _ _ H) as [[]|H']. exact H'.
Qed.

(** With a maximum of at least one the loop never returns more than the
    maximum. *)
Lemma unique_loop_length (maxResults : Z) (results : list Result) :
  forall (unique : list Result) (seen : gset string),
    (Z.of_nat (List.length unique) < maxResults)%Z ->
    (Z.of_nat (List.length (unique_loop results unique seen maxResults)) <= maxResults)%Z.
Proof.
  induction results as [|x results IH]; intros unique seen Hlen; cbn [unique_loop].
  - lia.
  - destruct (bool_decide (key x ∈ seen)); [apply IH, Hlen|].
    destruct (maxResults <=? _)%Z eqn:E.
    + rewrite length_app in *. cbn [List.length] in *. lia.
    + apply IH. apply Z.leb_gt in E. exact E.
Qed.

(** The keys of the entries returned are pairwise different. *)
Lemma unique_loop_NoDup (maxResults : Z) (results : list Result) :
  forall (unique : list Result) (seen : gset string),
    NoDup (map key unique) ->
    (forall r, In r unique -> key r ∈ seen) ->
    NoDup (map key (unique_loop results unique seen maxResults)).
Proof.
  induction results as [|x results IH]; intros unique seen Hnd Hseen; cbn [unique_loop].
  - exact Hnd.
  - destruct (bool_decide (key x ∈ seen)) eqn:E; [apply IH; assumption|].
    apply bool_decide_eq_false in E.
    assert (NoDup (map key (unique ++ [x]))) as Hnd'.
    { rewrite map_app. cbn [map]. apply NoDup_app. split; [exact Hnd|]. split.
      - intros k Hk Hx. apply list_elem_of_In in Hk, Hx.
        cbn [In] in Hx. destruct Hx as [<-|[]].
        apply in_map_iff in Hk. destruct Hk as (r & Hr & Hin).
        apply E. rewrite <- Hr. apply Hseen, Hin.
      - apply NoDup_singleton. }
    destruct (maxResults <=? _)%Z; [exact Hnd'|].
    apply IH; [exact Hnd'|].
    intros r Hr. apply in_app_iff in Hr. cbn [In] in Hr.
    destruct Hr as [Hr|[<-|[]]]; [|set_solver].
    apply Hseen in Hr. set_solver.
Qed.

Lemma getUniqueResults_NoDup (results : list Result) (maxResults : Z) :
  NoDup (map key (getUniqueResults results maxResults)).
Proof.
  apply unique_loop_NoDup; [constructor | intros r []].
Qed.


(** ** The key identifies the rounded triple *)

Lemma string_of_uint_no_x (d : Decimal.uint) :
  Spec.has_x (NilEmpty.string_of_uint d) = false.
Proof. induction d; cbn; auto. Qed.

Lemma Z_to_string_no_x (z : Z) : Spec.has_x (Z_to_string z) = false.
Proof.
  unfold Z_to_string. destruct (Z.to_int z); cbn; apply string_of_uint_no_x.
Qed.

Lemma Z_to_string_inj (a b : Z) : Z_to_string a = Z_to_string b -> a = b.
Proof.
  unfold Z_to_string. intros H.
  assert (Some (Z.to_int a) = Some (Z.to_int b)) as E.
  { rewrite <- !NilEmpty.isi. now rewrite H. }
  injection E as E.
  rewrite <- (DecimalZ.of_to a), <- (DecimalZ.of_to b). now rewrite E.
Qed.

(** Two texts cut at their first separator agree part by part. *)
Lemma split_at_x (s1 s2 t1 t2 : string) :
  Spec.has_x s1 = false -> Spec.has_x s2 = false ->
  (s1 ++ "x" ++ t1)%string = (s2 ++ "x" ++ t2)%string ->
  s1 = s2 /\ t1 = t2.
Proof.
  revert s2. induction s1 as [|c s1 IH]; intros [|c2 s2]; cbn; intros H1 H2 E.
  - injection E as E. auto.
  - injection E as Ec E. subst c2. discriminate H2.
  - injection E as Ec E. subst c. discriminate H1.
  - injection E as Ec E. subst c2.
    apply orb_false_iff in H1, H2.
    destruct (IH s2 (proj2 H1) (proj2 H2) E) as [-> ->]. auto.
Qed.

Lemma key_inj (a b : Result) :
  key a = key b ->
  width a = width b /\ length a = length b /\ height a = height b.
Proof.
  unfold key. intros E.
  apply split_at_x in E; try apply Z_to_string_no_x. destruct E as [Ew E].
  apply split_at_x in E; try apply Z_to_string_no_x. destruct E as [El Eh].
  auto using Z_to_string_inj.
Qed.

(** ** The entries come from triples within the tolerance *)

Lemma enumerate_In (target : Q) (ws ls hs : list Q) (r : Result) :
  In r (enumerate target ws ls hs) <->
  exists w l h, In w ws /\ In l ls /\ In h hs /\ In r (candidate target w l h).
Proof.
  unfold enumerate. rewrite in_flat_map. split.
  - intros (w & Hw & H). apply in_flat_map in H. destruct H as (l & Hl & H).
    apply in_flat_map in H. destruct H as (h & Hh & H). eauto 8.
  - intros (w & l & h & Hw & Hl & Hh & H). exists w. split; [exact Hw|].
    apply in_flat_map. exists l. split; [exact Hl|].
    apply in_flat_map. exists h. auto.
Qed.

(** The entry pushed for a triple records the rounded triple and the
    deviation, and is pushed only within the tolerance. *)
Lemma candidate_In (target w l h : Q) (r : Result) :
  In r (candidate target w l h) ->
  leb (percentDifferenceOf target l w h) (Fin (tolerancePercent * 100)) = true
  /\ width r = Math_round w /\ length r = Math_round l /\ height r = Math_round h
  /\ percentDifference r = toFixed1 (percentDifferenceOf target l w h)
  /\ volumeGallons r = toFixed1 (Fin (calculateVolume l w h * 0.264172)).
Proof.
  unfold candidate.
  destruct (leb (percentDifferenceOf target l w h) (Fin (tolerancePercent * 100)));
    cbn [In]; [|intros []].
  intros [<-|[]]. cbn. auto 6.
Qed.

(** For a positive target the tolerance test is the bound
    [|volume - target| <= target / 10]. *)
Lemma within_tolerance (target l w h : Q) :
  0 < target ->
  leb (percentDifferenceOf target l w h) (Fin (tolerancePercent * 100)) = true ->
  Qabs (calculateVolume l w h * 0.264172 - target) <= 0.1 * target.
Proof.
  intros Ht. unfold percentDifferenceOf.
  set (d := Qabs (calculateVolume l w h * 0.264172 - target)).
  cbn [div]. destruct (Qeq_bool target 0) eqn:E.
  { apply Qeq_bool_eq in E. lra. }
  cbn [mul leb]. intros H. apply Qle_bool_iff in H.
  unfold tolerancePercent in H.
  assert (d == d / target * target) as Hd by (field; lra).
  rewrite Hd.
  assert (d / target <= 0.1) as Hy by lra.
  apply Qmult_le_compat_r; lra.
Qed.


(** ** The search as a whole *)

Lemma findDimensions_total (target : Q) (constraints : Constraints) (maxResults : Z) :
  exists widthRange lengthRange heightRange,
    getDimensionRange minDimension (or_default (maxWidth constraints) maxDimension)
    = Some widthRange
    /\ getDimensionRange minDimension (or_default (maxLength constraints) maxDimension)
       = Some lengthRange
    /\ getDimensionRange 12 (or_default (maxHeight constraints) 60) = Some heightRange
    /\ findDimensions target constraints maxResults
       = Some (getUniqueResults
                 (sort compareResults (enumerate target widthRange lengthRange heightRange))
                 maxResults).
Proof.
  destruct (getDimensionRange_total minDimension
              (or_default (maxWidth constraints) maxDimension)) as [ws Hws].
  destruct (getDimensionRange_total minDimension
              (or_default (maxLength constraints) maxDimension)) as [ls Hls].
  destruct (getDimensionRange_total 12 (or_default (maxHeight constraints) 60))
    as [hs Hhs].
  exists ws, ls, hs. repeat split; try assumption.
  unfold findDimensions. rewrite Hws, Hls, Hhs. reflexivity.
Qed.

(** What holds of the result list for every positive target, every set of
    finite constraints and every maximum: the search returns a list; each
    entry stems from a grid triple whose volume is within a tenth of the
    target; no two entries share a rounded triple; the list is empty when
    no grid triple is within the tolerance; and the list is no longer than
    a maximum of at least one. *)
Theorem findDimensions_result_list
    (target : Q) (constraints : Constraints) (maxResults : Z) :
  0 < target ->
  exists widthRange lengthRange heightRange results,
    getDimensionRange minDimension (or_default (maxWidth constraints) maxDimension)
    = Some widthRange
    /\ getDimensionRange minDimension (or_default (maxLength constraints) maxDimension)
       = Some lengthRange
    /\ getDimensionRange 12 (or_default (maxHeight constraints) 60) = Some heightRange
    /\ findDimensions target constraints maxResults = Some results
    /\ (forall r, In r results ->
        exists w l h,
          In w widthRange /\ In l lengthRange /\ In h heightRange
          /\ width r = Math_round w /\ length r = Math_round l
          /\ height r = Math_round h
          /\ Qabs (calculateVolume l w h * 0.264172 - target) <= 0.1 * target)
    /\ NoDup (map (fun r => (width r, length r, height r)) results)
    /\ ((forall w l h, In w widthRange -> In l lengthRange -> In h heightRange ->
         leb (percentDifferenceOf target l w h) (Fin (tolerancePercent * 100)) = false) ->
        results = [])
    /\ ((1 <= maxResults)%Z -> (Z.of_nat (List.length results) <= maxResults)%Z).
Proof.
  intros Ht.
  destruct (findDimensions_total target constraints maxResults)
    as (ws & ls & hs & Hws & Hls & Hhs & Hfind).
  exists ws, ls, hs. eexists.
  split; [exact Hws|]. split; [exact Hls|]. split; [exact Hhs|].
  split; [exact Hfind|]. split; [|split; [|split]].
  - intros r Hr. apply getUniqueResults_In, sort_In, enumerate_In in Hr.
    destruct Hr as (w & l & h & Hw & Hl & Hh & Hr).
    apply candidate_In in Hr. destruct Hr as (Htol & Ew & El & Eh & _).
    exists w, l, h. repeat split; try assumption.
    apply within_tolerance; assumption.
  - pose proof (getUniqueResults_NoDup
                  (sort compareResults (enumerate target ws ls hs)) maxResults) as Hnd.
    revert Hnd. generalize (getUniqueResults
                  (sort compareResults (enumerate target ws ls hs)) maxResults).
    intros l. induction l as [|a l IH]; cbn [map]; intros Hnd; [constructor|].
    apply NoDup_cons in Hnd. destruct Hnd as [Ha Hnd].
    apply NoDup_cons. split; [|apply IH, Hnd].
    intros Hin. apply Ha.
    apply list_elem_of_In in Hin. apply list_elem_of_In.
    apply in_map_iff in Hin. destruct Hin as (b & Eb & Hb).
    apply in_map_iff. exists b. split; [|exact Hb].
    injection Eb as Ew El Eh. unfold key. now rewrite Ew, El, Eh.
  - intros Hnone.
    assert (enumerate target ws ls hs = []) as ->.
    { destruct (enumerate target ws ls hs) as [|r rest] eqn:E; [reflexivity|].
      assert (In r (enumerate target ws ls hs)) as Hr by (rewrite E; left; reflexivity).
      apply enumerate_In in Hr. destruct Hr as (w & l & h & Hw & Hl & Hh & Hr).
      apply candidate_In in Hr. destruct Hr as (Htol & _).
      rewrite (Hnone w l h Hw Hl Hh) in Htol. discriminate Htol. }
    reflexivity.
  - intros Hmax. apply unique_loop_length. cbn. lia.
Qed.

(** The statement at the 20 gallon search with the default arguments. *)
Lemma findDimensions_result_list_witness :
  0 < 20
  /\ exists results,
      findDimensions 20 noConstraints 10 = Some results
      /\ NoDup (map (fun r => (width r, length r, height r)) results)
      /\ (Z.of_nat (List.length results) <= 10)%Z.
Proof.
  split; [reflexivity|].
  destruct (findDimensions_result_list 20 noConstraints 10 eq_refl)
    as (ws & ls & hs & results & _ & _ & _ & Hfind & _ & Hnd & _ & Hlen).
  exists results. split; [exact Hfind|]. split; [exact Hnd|]. apply Hlen. lia.
Defined.

(** C2.  Evaluation of the code at the maximum zero: the search for 20
    gallons returns one entry, one more than the maximum allows.  The test
    against the maximum is made only after an entry has been pushed; the
    same shows on the grid of the four triples 12 x {12, 16} x {24, 32}. *)
Theorem findDimensions_exceeds_zero_maximum :
  findDimensions 20 noConstraints 0
  = Some [ {| width := 12; length := 12; height := 32;
              volumeGallons := "19.9"; percentDifference := "0.3";
              aspectRatio := "Tall (0.4:1 L:H)"; footprint := 144; depth := 32 |} ]
  /\ option_map (@List.length Result) (findDimensions 20 noConstraints 0) = Some 1%nat
  /\ getUniqueResults
       (sort compareResults (enumerate 20 [12] [12; 16] [24; 32])) 0
     = [ {| width := 12; length := 12; height := 32;
            volumeGallons := "19.9"; percentDifference := "0.3";
            aspectRatio := "Tall (0.4:1 L:H)"; footprint := 144; depth := 32 |} ].
Proof.
  split; [|split]; vm_compute; reflexivity.
Qed.

(** ** The 20 gallon search *)

(** The grid of widths and lengths and the grid of heights under the
    default constraints. *)
Lemma default_grids :
  getDimensionRange minDimension maxDimension
  = Some [10; 12; 14; 16; 18; 20; 22; 24; 28; 32; 36; 40; 44; 48; 54; 60; 66;
          72; 78; 84; 90; 96; 102; 108; 114; 120]
  /\ getDimensionRange 12 60
     = Some [12; 14; 16; 18; 20; 22; 24; 28; 32; 36; 40; 44; 48; 54; 60].
Proof. split; vm_compute; reflexivity. Qed.

(** The default 20 gallon search, with its grids spelled out. *)
Lemma twenty_gallon_search (maxResults : Z) :
  findDimensions 20 noConstraints maxResults
  = Some (getUniqueResults
            (sort compareResults
               (enumerate 20
                  [10; 12; 14; 16; 18; 20; 22; 24; 28; 32; 36; 40; 44; 48; 54; 60;
                   66; 72; 78; 84; 90; 96; 102; 108; 114; 120]
                  [10; 12; 14; 16; 18; 20; 22; 24; 28; 32; 36; 40; 44; 48; 54; 60;
                   66; 72; 78; 84; 90; 96; 102; 108; 114; 120]
                  [12; 14; 16; 18; 20; 22; 24; 28; 32; 36; 40; 44; 48; 54; 60]))
            maxResults).
Proof.
  destruct default_grids as [Hgrid Hheights].
  unfold findDimensions.
  cbn [noConstraints maxWidth maxLength maxHeight or_default].
  rewrite Hgrid, Hheights. reflexivity.
Qed.

(** Every entry the 20 gallon search can return passes the checks: no
    dimension of 30, and the percent difference of its own volume. *)
Lemma twenty_gallon_entries (maxResults : Z) (results : list Result) (r : Result) :
  findDimensions 20 noConstraints maxResults = Some results ->
  In r results ->
  Spec.entry_checks 20 r = true.
Proof.
  rewrite twenty_gallon_search. intros E. apply (inj Some) in E. subst results.
  intros Hr.
  apply getUniqueResults_In, sort_In in Hr.
  revert r Hr. apply forallb_forall. vm_compute. reflexivity.
Qed.

Lemma entry_checks_spec (target : Q) (r : Result) :
  Spec.entry_checks target r = true ->
  width r <> 30%Z /\ length r <> 30%Z /\ height r <> 30%Z
  /\ percentDifference r
     = toFixed1 (percentDifferenceOf target (inject_Z (length r))
                   (inject_Z (width r)) (inject_Z (height r))).
Proof.
  unfold Spec.entry_checks. intros H.
  apply andb_prop in H. destruct H as [H Hpd].
  apply andb_prop in H. destruct H as [H Hh].
  apply andb_prop in H. destruct H as [Hw Hl].
  apply negb_true_iff, Z.eqb_neq in Hw, Hl, Hh.
  apply String.eqb_eq in Hpd. auto.
Qed.

Lemma not_the_preset (r : Result) :
  width r <> 30%Z -> ~ Spec.has_dimensions_of r Spec.twentyGallonLong.
Proof.
  intros Hw (Ew & _). apply Hw.
  unfold Spec.twentyGallonLong, Qeq in Ew. cbn in Ew. lia.
Qed.

(** C7, counterexample.  The result list of the default 20 gallon search
    has no entry with the dimensions of the 20 Gallon Long preset. *)
Lemma twenty_gallon_long_is_missing :
  In Spec.twentyGallonLong presets
  /\ ~ (exists results,
          findDimensions 20 noConstraints 10 = Some results
          /\ Spec.includes_preset results Spec.twentyGallonLong).
Proof.
  split; [right; left; reflexivity|].
  intros (results & Hfind & r & Hin & Hdim).
  apply (not_the_preset r); [|exact Hdim].
  apply (entry_checks_spec 20), (twenty_gallon_entries 10 results); assumption.
Qed.

(** C7, as amended.  The search grid steps by four between 24 and 48, so
    30 is on none of its axes.  Whatever the maximum, no entry of the 20
    gallon search has a dimension of 30, and the 30 x 12 x 12 preset is
    not among them; the default search returns the ten entries listed.
    Each entry carries the percent difference of its own geometric volume
    from the target, printed with one decimal. *)
Theorem findDimensions_twenty_gallons :
  (forall maxResults : Z,
      exists results,
        findDimensions 20 noConstraints maxResults = Some results
        /\ Forall (fun r =>
                     width r <> 30%Z /\ length r <> 30%Z /\ height r <> 30%Z
                     /\ percentDifference r
                        = toFixed1 (percentDifferenceOf 20 (inject_Z (length r))
                                      (inject_Z (width r)) (inject_Z (height r))))
             results
        /\ ~ Spec.includes_preset results Spec.twentyGallonLong)
  /\ (exists results,
        findDimensions 20 noConstraints 10 = Some results
        /\ map (fun r => (width r, length r, height r, percentDifference r)) results
           = [ (12, 12, 32, "0.3"); (12, 16, 24, "0.3"); (12, 24, 16, "0.3");
               (12, 32, 12, "0.3"); (16, 12, 24, "0.3"); (16, 16, 18, "0.3");
               (16, 18, 16, "0.3"); (16, 24, 12, "0.3"); (18, 16, 16, "0.3");
               (24, 12, 16, "0.3") ]%Z%string)
  /\ Spec.on_grid 30 = false /\ Spec.on_grid 28 = true /\ Spec.on_grid 32 = true.
Proof.
  split; [|split; [|split; [|split]]].
  - intros maxResults. eexists. split; [apply twenty_gallon_search|].
    pose proof (fun r => twenty_gallon_entries maxResults _ r
                           (twenty_gallon_search maxResults)) as Hall.
    split.
    + apply Forall_forall. intros r Hr.
      apply list_elem_of_In, Hall in Hr. apply entry_checks_spec, Hr.
    + intros (r & Hr & Hdim). apply (not_the_preset r); [|exact Hdim].
      apply (entry_checks_spec 20), Hall, Hr.
  - eexists. split; vm_compute; reflexivity.
  - vm_compute; reflexivity.
  - vm_compute; reflexivity.
  - vm_compute; reflexivity.
Qed.

End DimensionFinderFacts.

(* ================================================================== *)
(** * Laws of the volume calculator                                 *)
(* ================================================================== *)

Section TankCalculatorLaws.

Import JS.
Import TankCalculator.



(** X3.  With a displacement fraction between 0 and 1 the water volume of a
    non-negative volume lies between 0 and that volume. *)
Theorem adjustForDisplacement_bounds (volumeLiters displacementPercent : Q) :
  0 <= volumeLiters -> 0 <= displacementPercent -> displacementPercent <= 1 ->
  0 <= adjustForDisplacement volumeLiters displacementPercent
  /\ adjustForDisplacement volumeLiters displacementPercent <= volumeLiters.
Proof.
  intros Hv H0 H1. unfold adjustForDisplacement. split; nra.
Qed.

Lemma adjustForDisplacement_bounds_witness :
  0 <= 100 /\ 0 <= 0.1 /\ 0.1 <= 1
  /\ 0 <= adjustForDisplacement 100 0.1
  /\ adjustForDisplacement 100 0.1 <= 100.
Proof.
  assert (0 <= 100) as Hv by (apply Qle_bool_iff; reflexivity).
  assert (0 <= 0.1) as H0 by (apply Qle_bool_iff; reflexivity).
  assert (0.1 <= 1) as H1 by (apply Qle_bool_iff; reflexivity).
  split; [exact Hv|]. split; [exact H0|]. split; [exact H1|].
  exact (adjustForDisplacement_bounds 100 0.1 Hv H0 H1).
Defined.




End TankCalculatorLaws.

(* ================================================================== *)
(** * Laws of the glass rules                                       *)
(* ================================================================== *)

Section GlassRecommenderLaws.

Import JS.
Import GlassRecommender.

(** ** Order facts on numbers *)

Lemma leb_trans (a b c : num) :
  leb a b = true -> leb b c = true -> leb a c = true.
Proof.
  destruct a as [x| | |], b as [y| | |], c as [z| | |]; cbn;
    try discriminate; try reflexivity.
  rewrite !Qle_bool_iff. intros; lra.
Qed.

Lemma gtb_leb_trans (a b c : num) :
  gtb a c = true -> leb a b = true -> gtb b c = true.
Proof.
  unfold gtb.
  destruct a as [x| | |], b as [y| | |], c as [z| | |]; cbn;
    try discriminate; try reflexivity.
  unfold Qlt_bool. rewrite !negb_true_iff, Qle_bool_iff.
  intros H1 H2. destruct (Qle_bool y z) eqn:E; [|reflexivity].
  apply Qle_bool_iff in E.
  assert (x <= z) as H by lra. apply Qle_bool_iff in H. congruence.
Qed.

(** X6.  The thickness never decreases when the depth grows at a fixed
    span, nor when the span grows at a fixed depth. *)
Theorem getThicknessForDimensions_monotone (depth1 depth2 span1 span2 : num) :
  leb depth1 depth2 = true -> leb span1 span2 = true ->
  (getThicknessForDimensions depth1 span1 <= getThicknessForDimensions depth2 span1)%Z
  /\ (getThicknessForDimensions depth1 span1 <= getThicknessForDimensions depth1 span2)%Z
  /\ (getThicknessForDimensions depth1 span1 <= getThicknessForDimensions depth2 span2)%Z.
Proof.
  intros Hd Hs.
  assert (forall c, leb depth2 c = true -> leb depth1 c = true) as Hdepth
    by (intros c; apply leb_trans, Hd).
  assert (forall c, gtb span1 c = true -> gtb span2 c = true) as Hspan
    by (intros c H; apply (gtb_leb_trans span1 span2 c H Hs)).
  unfold getThicknessForDimensions.
  pose proof (Hdepth (Fin 12)) as D12. pose proof (Hdepth (Fin 15)) as D15.
  pose proof (Hdepth (Fin 24)) as D24. pose proof (Hdepth (Fin 30)) as D30.
  pose proof (Hdepth (Fin 36)) as D36.
  pose proof (Hspan (Fin 48)) as S48. pose proof (Hspan (Fin 60)) as S60.
  destruct (leb depth2 (Fin 12)); [rewrite (D12 eq_refl)|];
  destruct (leb depth2 (Fin 15)); try rewrite (D15 eq_refl);
  destruct (leb depth2 (Fin 24)); try rewrite (D24 eq_refl);
  destruct (leb depth2 (Fin 30)); try rewrite (D30 eq_refl);
  destruct (leb depth2 (Fin 36)); try rewrite (D36 eq_refl);
  destruct (gtb span1 (Fin 48)); try rewrite (S48 eq_refl);
  destruct (gtb span1 (Fin 60)); try rewrite (S60 eq_refl);
  repeat match goal with |- context [if ?c then _ else _] => destruct c end;
  lia.
Qed.

Lemma getThicknessForDimensions_monotone_witness :
  leb (Fin 12) (Fin 30) = true /\ leb (Fin 24) (Fin 72) = true
  /\ (getThicknessForDimensions (Fin 12) (Fin 24)
      <= getThicknessForDimensions (Fin 30) (Fin 72))%Z.
Proof.
  split; [reflexivity|]. split; [reflexivity|].
  exact (proj2 (proj2 (getThicknessForDimensions_monotone
                         (Fin 12) (Fin 30) (Fin 24) (Fin 72) eq_refl eq_refl))).
Defined.


(** X7.  The label is always the description of one of the six table
    rows, and the thickness behind it is one of 3, 5, 6, 7, 8, 9, 10, 12. *)
Theorem getRecommendation_from_table (length width height : num) :
  In (getRecommendation length width height) (map description recommendations)
  /\ In (getThicknessForDimensions height (Math_max length width))
       [3; 5; 6; 7; 8; 9; 10; 12]%Z.
Proof.
  unfold getRecommendation.
  generalize (Math_max length width) as span. intros span.
  unfold getThicknessForDimensions.
  destruct (leb height (Fin 12)), (leb height (Fin 15)), (leb height (Fin 24)),
    (leb height (Fin 30)), (leb height (Fin 36)),
    (gtb span (Fin 48)), (gtb span (Fin 60));
    vm_compute; split; tauto.
Qed.

(** The comparisons cannot tell [Math.max(a, b)] from [Math.max(b, a)]. *)
Lemma gtb_Math_max_comm (a b c : num) :
  gtb (Math_max a b) c = gtb (Math_max b a) c.
Proof.
  destruct a as [x| | |], b as [y| | |]; try reflexivity.
  unfold Math_max, gtb. cbn [leb].
  destruct (Qle_bool x y) eqn:Exy, (Qle_bool y x) eqn:Eyx; try reflexivity.
  - apply Qle_bool_iff in Exy, Eyx.
    assert (x == y) as E by lra.
    destruct c as [z| | |]; cbn; try reflexivity.
    unfold Qlt_bool. now rewrite E.
  - assert (y <= x) as H.
    { apply Qlt_le_weak, Qnot_le_lt. intros H. apply Qle_bool_iff in H. congruence. }
    apply Qle_bool_iff in H. congruence.
Qed.

(** X8.  Exchanging length and width changes neither the label, nor the
    detailed recommendation, nor the special-attention flag. *)
Theorem glass_recommendation_symmetric (length width height : num) :
  getRecommendation length width height = getRecommendation width length height
  /\ getDetailedRecommendation length width height
     = getDetailedRecommendation width length height
  /\ requiresSpecialAttention length width height
     = requiresSpecialAttention width length height.
Proof.
  assert (getRecommendation length width height
          = getRecommendation width length height) as Hrec.
  { unfold getRecommendation, getThicknessForDimensions.
    rewrite (gtb_Math_max_comm length width (Fin 48)),
      (gtb_Math_max_comm length width (Fin 60)). reflexivity. }
  split; [exact Hrec|]. split.
  - unfold getDetailedRecommendation. rewrite Hrec.
    rewrite (gtb_Math_max_comm length width (Fin 48)),
      (gtb_Math_max_comm length width (Fin 60)). reflexivity.
  - unfold requiresSpecialAttention.
    rewrite (gtb_Math_max_comm length width (Fin 60)). reflexivity.
Qed.


(** X10.  A tank with a panel over 60 is never given less than the 10mm
    row, and the 3mm row is given only to tanks at most 12 deep with a
    span of at most 48. *)
Theorem getRecommendation_thin_glass_limits (length width height : num) :
  (gtb (Math_max length width) (Fin 60) = true ->
   getRecommendation length width height = "10mm (large tanks)"%string
   \/ getRecommendation length width height = "12mm+ (extra large tanks)"%string)
  /\ (getRecommendation length width height = "3mm (for nano tanks only)"%string <->
      leb height (Fin 12) = true /\ gtb (Math_max length width) (Fin 48) = false).
Proof.
  unfold getRecommendation.
  generalize (Math_max length width) as span. intros span.
  pose proof (gtb_60_48 span) as Hspan.
  unfold getThicknessForDimensions.
  destruct (gtb span (Fin 60)) eqn:H60;
    [rewrite (Hspan eq_refl) | destruct (gtb span (Fin 48)) eqn:H48];
    destruct (leb height (Fin 12)), (leb height (Fin 15)), (leb height (Fin 24)),
      (leb height (Fin 30)), (leb height (Fin 36));
    vm_compute;
    (split; [first [intros H; discriminate H | intros _; auto]
            | split; [intros H; first [discriminate H | auto]
                     | intros [H1 H2];
                       first [discriminate H1 | discriminate H2 | reflexivity]]]).
Qed.

Lemma getRecommendation_thin_glass_limits_witness :
  gtb (Math_max (Fin 72) (Fin 24)) (Fin 60) = true
  /\ (getRecommendation (Fin 72) (Fin 24) (Fin 12) = "10mm (large tanks)"%string
      \/ getRecommendation (Fin 72) (Fin 24) (Fin 12) = "12mm+ (extra large tanks)"%string).
Proof.
  split; [reflexivity|].
  exact (proj1 (getRecommendation_thin_glass_limits (Fin 72) (Fin 24) (Fin 12)) eq_refl).
Defined.

End GlassRecommenderLaws.

(* ================================================================== *)
(** * Laws of the equipment strategies                              *)
(* ================================================================== *)

Section EquipmentLaws.

Import JS.
Import EquipmentStrategy.
Import EquipmentStrategyFactory.
Import EquipmentRecommender.

(** X11.  An equipment type that is none of the eight keys of the
    strategies object gets the placeholder, whatever the arguments.  The
    names that every object inherits are set aside: for them the lookup in
    the strategies object finds a value that is no strategy. *)
Theorem getRecommendation_unknown_type (equipmentType : string) (params : list value) :
  ~ In equipmentType
      [ "filter"; "heater"; "chiller"; "uvSterilizer"; "airPump"; "thermometer";
        "circulationPump"; "ato" ]%string ->
  ~ In equipmentType Notions.inherited_names ->
  getRecommendation equipmentType params = Some "--"%string.
Proof.
  intros Hk _. unfold getRecommendation, strategies.
  rewrite !lookup_insert_ne by (intros <-; apply Hk; cbn; tauto).
  rewrite lookup_empty. reflexivity.
Qed.

Lemma getRecommendation_unknown_type_witness :
  ~ In "skimmer"%string
      [ "filter"; "heater"; "chiller"; "uvSterilizer"; "airPump"; "thermometer";
        "circulationPump"; "ato" ]%string
  /\ ~ In "skimmer"%string Notions.inherited_names
  /\ getRecommendation "skimmer" [VNum (Fin 50)] = Some "--"%string.
Proof.
  assert (~ In "skimmer"%string
            [ "filter"; "heater"; "chiller"; "uvSterilizer"; "airPump";
              "thermometer"; "circulationPump"; "ato" ]%string) as H.
  { cbn. intros H. repeat (destruct H as [H|H]; [discriminate H|]). exact H. }
  assert (~ In "skimmer"%string Notions.inherited_names) as H'.
  { cbn. intros H'. repeat (destruct H' as [H'|H']; [discriminate H'|]). exact H'. }
  split; [exact H|]. split; [exact H'|].
  exact (getRecommendation_unknown_type "skimmer" [VNum (Fin 50)] H H').
Defined.

(** ** Strategies over arbitrary tables *)

Lemma last_or_placeholder_cases (bands : list Band) :
  last_or_placeholder bands = "--"%string
  \/ exists b, In b bands /\ recommendation b = last_or_placeholder bands.
Proof.
  unfold last_or_placeholder. destruct (last bands) as [b|] eqn:E; [|auto].
  destruct (String.eqb (recommendation b) EmptyString); [auto|].
  right. exists b. split; [|reflexivity].
  apply list_elem_of_In, last_Some_elem_of, E.
Qed.

(** X12.  A strategy that is not keyed on dimensions returns a text, and
    the text it returns is either the placeholder or the text of one of the
    bands of its table; with an empty table it is the placeholder. *)
Theorem strategy_text_from_table (this : t) (params : list value) :
  String.eqb (type this) "dimensions" = false ->
  exists text,
    EquipmentStrategy.getRecommendation this params = Some text
    /\ (text = "--"%string
        \/ exists b, In b (recommendations this) /\ recommendation b = text)
    /\ (recommendations this = [] -> text = "--"%string).
Proof.
  intros Htype. unfold EquipmentStrategy.getRecommendation. rewrite Htype.
  eexists. split; [reflexivity|].
  destruct (List.find _ (recommendations this)) as [b|] eqn:E.
  - split.
    + right. exists b. split; [|reflexivity]. apply (find_some _ _ E).
    + intros Hnil. rewrite Hnil in E. discriminate E.
  - split; [apply last_or_placeholder_cases|].
    intros ->. reflexivity.
Qed.

Lemma strategy_text_from_table_witness :
  String.eqb (type createHeaterStrategy) "dimensions" = false
  /\ exists text,
      EquipmentStrategy.getRecommendation createHeaterStrategy [VNum (Fin 50)]
      = Some text
      /\ (text = "--"%string
          \/ exists b, In b (recommendations createHeaterStrategy)
                       /\ recommendation b = text).
Proof.
  split; [reflexivity|].
  destruct (strategy_text_from_table createHeaterStrategy [VNum (Fin 50)] eq_refl)
    as (text & H1 & H2 & _).
  exists text. split; [exact H1 | exact H2].
Defined.

(** The first element that passes a test, with the ones before it failing. *)
Lemma find_first {A : Type} (f : A -> bool) (l : list A) (x : A) :
  List.find f l = Some x ->
  exists l1 l2, l = l1 ++ x :: l2 /\ f x = true /\ forall y, In y l1 -> f y = false.
Proof.
  induction l as [|a l IH]; cbn [List.find]; [discriminate|].
  destruct (f a) eqn:E.
  - intros H. injection H as <-. exists [], l. repeat split; [exact E | intros y []].
  - intros H. destruct (IH H) as (l1 & l2 & -> & Hx & Hl1).
    exists (a :: l1), l2. repeat split; [exact Hx|].
    intros y [<-|Hy]; auto.
Qed.

(** X13.  The catch-all invariant.  When the table of a strategy that is
    not keyed on dimensions ends in a band whose bound is [Infinity], every
    criterion value that is a number selects a band: the text returned is
    that of the first band whose bound is at least the value, and every
    band before it has a smaller bound. *)
Theorem strategy_catch_all (this : t) (params : list value)
    (front : list Band) (lastBand : Band) :
  String.eqb (type this) "dimensions" = false ->
  recommendations this = front ++ [lastBand] ->
  Spec.bound lastBand = PInf ->
  leb (ToNumber (criteriaExtractor this params)) PInf = true ->
  exists before band after,
    recommendations this = before ++ band :: after
    /\ EquipmentStrategy.getRecommendation this params = Some (recommendation band)
    /\ leb (ToNumber (criteriaExtractor this params)) (Spec.bound band) = true
    /\ forall b, In b before ->
         leb (ToNumber (criteriaExtractor this params)) (Spec.bound b) = false.
Proof.
  intros Htype Htable Hlast Hcrit.
  unfold EquipmentStrategy.getRecommendation. rewrite Htype.
  destruct (List.find
              (fun rec => value_leb (criteriaExtractor this params)
                            (get_bound rec (getCriteriaProperty rec)))
              (recommendations this)) as [b|] eqn:E.
  - destruct (find_first _ _ _ E) as (l1 & l2 & Hl & Hb & Hl1).
    exists l1, b, l2. split; [exact Hl|]. split; [reflexivity|].
    split; [exact Hb | exact Hl1].
  - exfalso.
    pose proof (find_none _ _ E lastBand) as Hnone.
    rewrite Htable in Hnone.
    assert (In lastBand (front ++ [lastBand])) as Hin
      by (apply in_or_app; right; left; reflexivity).
    specialize (Hnone Hin).
    change (leb (ToNumber (criteriaExtractor this params)) (Spec.bound lastBand) = false)
      in Hnone.
    rewrite Hlast in Hnone. congruence.
Qed.

Lemma strategy_catch_all_witness :
  String.eqb (type createChillerStrategy) "dimensions" = false
  /\ exists before band after,
      recommendations createChillerStrategy = before ++ band :: after
      /\ EquipmentStrategy.getRecommendation createChillerStrategy [VNum (Fin 100)]
         = Some (recommendation band).
Proof.
  split; [reflexivity|].
  destruct (strategy_catch_all createChillerStrategy [VNum (Fin 100)]
              [ volumeBand (Fin 20) "1/10 HP chiller for small tanks in warm climates";
                volumeBand (Fin 75) "1/4 HP chiller for medium tanks";
                volumeBand (Fin 125) "1/3 HP chiller for large tanks" ]
              (volumeBand PInf "1/2 to 1 HP chiller for very large tanks")
              eq_refl eq_refl eq_refl eq_refl)
    as (before & band & after & H1 & H2 & _).
  exists before, band, after. split; [exact H1 | exact H2].
Defined.




(** No lookup in one of the eight tables ends in the placeholder or in an
    empty text, whatever the observed value. *)
Lemma lookup_text_not_placeholder (c : Spec.Category) (x : num) :
  Spec.lookup_text (Spec.table c) x <> "--"%string
  /\ Spec.lookup_text (Spec.table c) x <> EmptyString.
Proof.
  unfold Spec.lookup_text, Spec.first_band.
  destruct c; cbn [Spec.table List.find filterRecommendations heaterRecommendations
      chillerRecommendations uvSterilizerRecommendations airPumpRecommendations
      thermometerRecommendations circulationPumpRecommendations atoRecommendations];
    repeat match goal with
           | |- context [leb x (Spec.bound ?b)] => destruct (leb x (Spec.bound b))
           end;
    split; vm_compute; discriminate.
Qed.

(** X15.  [getAllRecommendations] never raises: for all numbers, [NaN]
    and the infinities included, and for every value in the place of the
    surface-area object, it returns the complete set of eight entries, none
    of which is empty or the placeholder. *)
Theorem getAllRecommendations_complete
    (length width height volumeGallons : num) (surfaceArea : value) :
  exists r,
    getAllRecommendations length width height volumeGallons surfaceArea = Some r
    /\ forall c, Spec.entry c r <> "--"%string /\ Spec.entry c r <> EmptyString.
Proof.
  eexists. split; [apply getAllRecommendations_entries|].
  intros c.
  destruct c; cbn [Spec.entry filter heater chiller uvSterilizer airPump
                     thermometer circulationPump ato];
    [ split; discriminate
    | apply (lookup_text_not_placeholder Spec.Heater)
    | apply (lookup_text_not_placeholder Spec.Chiller)
    | apply (lookup_text_not_placeholder Spec.UVSterilizer)
    | apply (lookup_text_not_placeholder Spec.AirPump)
    | apply (lookup_text_not_placeholder Spec.Thermometer)
    | apply (lookup_text_not_placeholder Spec.CirculationPump)
    | apply (lookup_text_not_placeholder Spec.ATO) ].
Qed.

(** X16.  Without a usable top area ([null], [undefined], an object
    without [topSqFt], or a top area of zero or [NaN]) the area counts as
    zero: the air pump and auto-top-off entries are those of the smallest
    band. *)
Theorem getAllRecommendations_missing_area
    (length width height volumeGallons : num) (surfaceArea : value) :
  truthy (opt_topSqFt surfaceArea) = false ->
  exists r,
    getAllRecommendations length width height volumeGallons surfaceArea = Some r
    /\ airPump r = "10-30 GPH air pump with single airstone"%string
    /\ ato r = "1-2 gallon reservoir with small pump"%string.
Proof.
  intros H. eexists. split; [apply getAllRecommendations_entries|].
  cbn [airPump ato]. unfold Spec.area_of, or_else. rewrite H.
  split; reflexivity.
Qed.

Lemma getAllRecommendations_missing_area_witness :
  truthy (opt_topSqFt VNull) = false
  /\ exists r,
      getAllRecommendations (Fin 36) (Fin 18) (Fin 18) (Fin 50) VNull = Some r
      /\ airPump r = "10-30 GPH air pump with single airstone"%string
      /\ ato r = "1-2 gallon reservoir with small pump"%string.
Proof.
  split; [reflexivity|].
  exact (getAllRecommendations_missing_area (Fin 36) (Fin 18) (Fin 18) (Fin 50)
           VNull eq_refl).
Defined.

(** X17.  Handed the volume at position 0 and length and width at the
    positions 3 and 4, the positions its extractor reads, the circulation
    pump strategy returns the band text of the volume, followed by the
    advice for long tanks exactly when the length exceeds 1.5 times the
    width. *)
Theorem circulationPump_strategy_by_positions
    (volumeGallons length width : num) (p1 p2 : value) :
  EquipmentStrategy.getRecommendation createCirculationPumpStrategy
    [VNum volumeGallons; p1; p2; VNum length; VNum width]
  = Some (if gtb length (mul width (Fin 1.5))
          then (Spec.lookup_text circulationPumpRecommendations volumeGallons
                  ++ " - consider multiple units for even flow in long tanks")%string
          else Spec.lookup_text circulationPumpRecommendations volumeGallons)
  /\ (gtb length (mul width (Fin 1.5)) = false ->
      EquipmentStrategy.getRecommendation createCirculationPumpStrategy
        [VNum volumeGallons; p1; p2; VNum length; VNum width]
      = getCirculationPumpRecommendation (VNum volumeGallons) (VNum length) (VNum width)).
Proof.
  split; [reflexivity|].
  intros H. rewrite circulationPump_entry.
  change (EquipmentStrategy.getRecommendation createCirculationPumpStrategy
            [VNum volumeGallons; p1; p2; VNum length; VNum width])
    with (Some (if gtb length (mul width (Fin 1.5))
                then (Spec.lookup_text circulationPumpRecommendations volumeGallons
                        ++ " - consider multiple units for even flow in long tanks")%string
                else Spec.lookup_text circulationPumpRecommendations volumeGallons)).
  rewrite H. reflexivity.
Qed.

(** X18.  A flow that is missing or zero ([undefined], [null], [0],
    [NaN], the empty text) is replaced by 300 gallons per hour: the UV
    sterilizer advice is the 25-36W text. *)
Theorem getUVSterilizerRecommendation_default (filterFlow : value) :
  truthy filterFlow = false ->
  getUVSterilizerRecommendation filterFlow = Some "25-36W UV sterilizer"%string.
Proof.
  intros H. unfold getUVSterilizerRecommendation, or_else. rewrite H. reflexivity.
Qed.

Lemma getUVSterilizerRecommendation_default_witness :
  truthy VUndefined = false
  /\ getUVSterilizerRecommendation VUndefined = Some "25-36W UV sterilizer"%string.
Proof.
  split; [reflexivity|].
  exact (getUVSterilizerRecommendation_default VUndefined eq_refl).
Defined.

End EquipmentLaws.

(* ================================================================== *)
(** * Laws of the range of dimensions                               *)
(* ================================================================== *)

Section DimensionRangeLaws.

Import JS.
Import DimensionFinder.
Import Notions.

Lemma range_loop_step (fuel : nat) (range : list Q) (current max : Q) :
  range_loop (S fuel) range current max
  = if Qle_bool current max
    then range_loop fuel (range ++ [current]) (current + Notions.step_after current) max
    else Some range.
Proof.
  cbn [range_loop]. unfold Notions.step_after.
  destruct (Qle_bool current max); [|reflexivity].
  destruct (Qlt_bool current 24); [reflexivity|].
  destruct (Qlt_bool current 48); reflexivity.
Qed.

Lemma range_loop_chain (max : Q) (fuel : nat) :
  forall (range : list Q) (current : Q) (out : list Q),
    range_loop fuel range current max = Some out ->
    exists l, out = range ++ l /\ chain max current l.
Proof.
  induction fuel as [|fuel IH]; intros range current out; [discriminate|].
  rewrite range_loop_step. destruct (Qle_bool current max) eqn:E.
  - intros H. destruct (IH _ _ _ H) as (l & -> & Hl).
    exists (current :: l). rewrite <- app_assoc. split; [reflexivity|].
    constructor; [apply Qle_bool_iff, E | exact Hl].
  - intros H. injection H as <-. exists []. rewrite app_nil_r.
    split; [reflexivity|]. constructor.
    apply Qnot_le_lt. intros H. apply Qle_bool_iff in H. congruence.
Qed.


Lemma step_after_positive (current : Q) : 2 <= Notions.step_after current.
Proof.
  unfold Notions.step_after.
  destruct (Qlt_bool current 24), (Qlt_bool current 48); lra.
Qed.


Lemma chain_bounds (max current : Q) (l : list Q) :
  chain max current l -> Forall (fun x => current <= x /\ x <= max) l.
Proof.
  induction 1 as [|current rest Hle _ IH]; constructor.
  - split; [lra | exact Hle].
  - pose proof (step_after_positive current) as Hs.
    eapply Forall_impl; [exact IH|]. cbn. intros x [H1 H2]. split; lra.
Qed.




End DimensionRangeLaws.

(* ================================================================== *)
(** * Laws of the entries of a search                               *)
(* ================================================================== *)

Section DimensionEntriesLaws.

Import JS.
Import DimensionFinder.
Import Notions.

(** ** Grid values are integers *)

Lemma Math_round_integer (x : Q) (z : Z) : x == inject_Z z -> Math_round x = z.
Proof.
  intros H. unfold Math_round. rewrite H.
  unfold Qfloor, Qplus, inject_Z, Qdiv, Qmult, Qinv. cbn.
  change (Z.pos (1 * 2)) with 2%Z. change (Z.pos (1 * (1 * 2))) with 2%Z.
  change (1 * 1 * 1)%Z with 1%Z.
  replace (z * 2 + 1)%Z with (1 + z * 2)%Z by lia.
  rewrite Z.div_add by lia. reflexivity.
Qed.

Lemma step_after_integer (current : Q) :
  exists z, Notions.step_after current = inject_Z z.
Proof.
  unfold Notions.step_after.
  destruct (Qlt_bool current 24); [exists 2%Z; reflexivity|].
  destruct (Qlt_bool current 48); [exists 4%Z | exists 6%Z]; reflexivity.
Qed.

Lemma chain_integers (max current : Q) (l : list Q) :
  chain max current l ->
  (exists z, current == inject_Z z) ->
  Forall (fun x => exists z, x == inject_Z z) l.
Proof.
  induction 1 as [|current rest Hle _ IH]; intros [z Hz]; constructor.
  - exists z. exact Hz.
  - apply IH. destruct (step_after_integer current) as [s ->].
    exists (z + s)%Z. rewrite Hz, inject_Z_plus. reflexivity.
Qed.

Lemma getDimensionRange_integers (min max : Q) (range : list Q) (z : Z) :
  min == inject_Z z ->
  getDimensionRange min max = Some range ->
  Forall (fun x => (exists k, x == inject_Z k) /\ min <= x /\ x <= max) range.
Proof.
  intros Hz Hrange.
  apply range_loop_chain in Hrange. destruct Hrange as (l & -> & Hchain).
  cbn [app]. apply Forall_and. split.
  - apply (chain_integers _ _ _ Hchain). exists z. exact Hz.
  - apply chain_bounds, Hchain.
Qed.


(** ** Printing does not depend on the representation of a rational *)

Lemma Qlt_bool_compat (x x' y y' : Q) :
  x == x' -> y == y' -> Qlt_bool x y = Qlt_bool x' y'.
Proof. intros Hx Hy. unfold Qlt_bool. now rewrite Hx, Hy. Qed.

Lemma toFixed1_compat (x y : Q) : x == y -> toFixed1 (Fin x) = toFixed1 (Fin y).
Proof.
  intros H. unfold toFixed1, toFixed1_nonneg.
  rewrite (Qlt_bool_compat x y 0 0 H (Qeq_refl 0)).
  assert (Qfloor (x * 10 + 1 / 2) = Qfloor (y * 10 + 1 / 2)) as ->
    by (apply Qfloor_comp; now rewrite H).
  assert (Qfloor (- x * 10 + 1 / 2) = Qfloor (- y * 10 + 1 / 2)) as ->
    by (apply Qfloor_comp; now rewrite H).
  reflexivity.
Qed.

Lemma toFixed1_div_compat (a a' b b' : Q) :
  a == a' -> b == b' ->
  toFixed1 (div (Fin a) (Fin b)) = toFixed1 (div (Fin a') (Fin b')).
Proof.
  intros Ha Hb. cbn [div]. rewrite (Qeqb_comp b b' Hb 0 0 (Qeq_refl 0)).
  destruct (Qeq_bool b' 0).
  - rewrite (Qcompare_comp a a' Ha 0 0 (Qeq_refl 0)). reflexivity.
  - apply toFixed1_compat. now rewrite Ha, Hb.
Qed.

Lemma percentDifferenceOf_compat (target l l' w w' h h' : Q) :
  l == l' -> w == w' -> h == h' ->
  toFixed1 (percentDifferenceOf target l w h)
  = toFixed1 (percentDifferenceOf target l' w' h').
Proof.
  intros Hl Hw Hh. unfold percentDifferenceOf.
  assert (Qabs (calculateVolume l w h * 0.264172 - target)
          == Qabs (calculateVolume l' w' h' * 0.264172 - target)) as Hd.
  { unfold calculateVolume. now rewrite Hl, Hw, Hh. }
  revert Hd.
  generalize (Qabs (calculateVolume l w h * 0.264172 - target)) as d.
  generalize (Qabs (calculateVolume l' w' h' * 0.264172 - target)) as d'.
  intros d' d Hd. cbn [div].
  destruct (Qeq_bool target 0).
  - rewrite (Qcompare_comp d d' Hd 0 0 (Qeq_refl 0)). reflexivity.
  - cbn [mul]. apply toFixed1_compat. now rewrite Hd.
Qed.

Lemma getAspectRatio_compat (l l' w w' h h' : Q) :
  l == l' -> w == w' -> h == h' ->
  getAspectRatio l w h = getAspectRatio l' w' h'.
Proof.
  intros Hl Hw Hh. unfold getAspectRatio.
  rewrite (toFixed1_div_compat l l' w w' Hl Hw),
    (toFixed1_div_compat l l' h h' Hl Hh),
    (toFixed1_div_compat w w' l l' Hw Hl).
  rewrite (Qlt_bool_compat (w * 2) (w' * 2) l l') by (trivial; now rewrite Hw).
  rewrite (Qlt_bool_compat (l * 1.5) (l' * 1.5) w w') by (trivial; now rewrite Hl).
  rewrite (Qlt_bool_compat (l * 0.8) (l' * 0.8) h h') by (trivial; now rewrite Hl).
  rewrite (Qlt_bool_compat (h * 2) (h' * 2) l l') by (trivial; now rewrite Hh).
  reflexivity.
Qed.

(** ** Where an entry comes from *)

(** Every entry of a result list is the entry pushed for a grid triple of
    integers, which its three rounded dimensions repeat unchanged. *)
Lemma result_origin (target : Q) (constraints : Constraints) (maxResults : Z)
    (results : list Result) (r : Result) :
  findDimensions target constraints maxResults = Some results ->
  In r results ->
  exists w l h,
    In r (candidate target w l h)
    /\ w == inject_Z (width r) /\ l == inject_Z (length r)
    /\ h == inject_Z (height r)
    /\ (minDimension <= w /\ w <= or_default (maxWidth constraints) maxDimension)
    /\ (minDimension <= l /\ l <= or_default (maxLength constraints) maxDimension)
    /\ (12 <= h /\ h <= or_default (maxHeight constraints) 60).
Proof.
  intros Hfind Hr.
  destruct (findDimensions_total target constraints maxResults)
    as (ws & ls & hs & Hws & Hls & Hhs & Hfind').
  rewrite Hfind in Hfind'. apply (inj Some) in Hfind'. subst results.
  apply getUniqueResults_In, sort_In, enumerate_In in Hr.
  destruct Hr as (w & l & h & Hw & Hl & Hh & Hr).
  apply (getDimensionRange_integers _ _ _ 10%Z) in Hws; [|reflexivity].
  apply (getDimensionRange_integers _ _ _ 10%Z) in Hls; [|reflexivity].
  apply (getDimensionRange_integers _ _ _ 12%Z) in Hhs; [|reflexivity].
  rewrite Forall_forall in Hws, Hls, Hhs.
  apply list_elem_of_In in Hw, Hl, Hh.
  destruct (Hws w Hw) as ([zw Ezw] & Bw).
  destruct (Hls l Hl) as ([zl Ezl] & Bl).
  destruct (Hhs h Hh) as ([zh Ezh] & Bh).
  exists w, l, h. split; [exact Hr|].
  apply candidate_In in Hr. destruct Hr as (_ & Ew & El & Eh & _).
  rewrite Ew, El, Eh.
  rewrite (Math_round_integer w zw Ezw), (Math_round_integer l zl Ezl),
    (Math_round_integer h zh Ezh).
  auto 10.
Qed.


Lemma Qle_inject_Z (a b : Z) : inject_Z a <= inject_Z b -> (a <= b)%Z.
Proof. rewrite <- Zle_Qle. auto. Qed.

(** X20.  Every entry of a result list keeps to the search box: width and
    length are integers from 10 up to their maxima, the height is an
    integer from 12 up to its maximum, the depth repeats the height and the
    footprint is the product of the length and width listed. *)
Theorem findDimensions_entries_in_box
    (target : Q) (constraints : Constraints) (maxResults : Z) :
  exists results,
    findDimensions target constraints maxResults = Some results
    /\ Forall (fun r =>
                 (10 <= width r)%Z
                 /\ inject_Z (width r) <= or_default (maxWidth constraints) maxDimension
                 /\ (10 <= length r)%Z
                 /\ inject_Z (length r) <= or_default (maxLength constraints) maxDimension
                 /\ (12 <= height r)%Z
                 /\ inject_Z (height r) <= or_default (maxHeight constraints) 60
                 /\ depth r = height r
                 /\ footprint r = (length r * width r)%Z)
         results.
Proof.
  destruct (findDimensions_total target constraints maxResults)
    as (ws & ls & hs & _ & _ & _ & Hfind).
  eexists. split; [exact Hfind|].
  apply Forall_forall. intros r Hr. apply list_elem_of_In in Hr.
  destruct (result_origin _ _ _ _ _ Hfind Hr)
    as (w & l & h & Hc & Ew & El & Eh & [Bw1 Bw2] & [Bl1 Bl2] & [Bh1 Bh2]).
  unfold minDimension in *.
  rewrite Ew in Bw1, Bw2. rewrite El in Bl1, Bl2. rewrite Eh in Bh1, Bh2.
  split; [apply (Qle_inject_Z 10), Bw1|]. split; [exact Bw2|].
  split; [apply (Qle_inject_Z 10), Bl1|]. split; [exact Bl2|].
  split; [apply (Qle_inject_Z 12), Bh1|]. split; [exact Bh2|].
  unfold candidate in Hc.
  destruct (leb _ _); [|destruct Hc].
  assert (depth r = height r) as Ed by (destruct Hc as [<-|[]]; reflexivity).
  assert (footprint r = Math_round (l * w)) as Ef
    by (destruct Hc as [<-|[]]; reflexivity).
  clear Hc. split; [exact Ed|].
  rewrite Ef. apply Math_round_integer.
  rewrite El, Ew, inject_Z_mult. reflexivity.
Qed.

(** X21.  The texts of an entry are those of the triple it lists: the
    gallons are the calculator's gallons of the listed length, width and
    height printed with one decimal, the percent difference is that of the
    same volume from the target, and the aspect-ratio label is that of the
    listed triple. *)
Theorem findDimensions_entries_consistent
    (target : Q) (constraints : Constraints) (maxResults : Z) :
  exists results,
    findDimensions target constraints maxResults = Some results
    /\ Forall (fun r =>
                 let l := inject_Z (length r) in
                 let w := inject_Z (width r) in
                 let h := inject_Z (height r) in
                 volumeGallons r
                 = toFixed1 (Fin (TankCalculator.convertToGallons
                                    (TankCalculator.calculateVolume l w h)))
                 /\ percentDifference r = toFixed1 (percentDifferenceOf target l w h)
                 /\ aspectRatio r = getAspectRatio l w h)
         results.
Proof.
  destruct (findDimensions_total target constraints maxResults)
    as (ws & ls & hs & _ & _ & _ & Hfind).
  eexists. split; [exact Hfind|].
  apply Forall_forall. intros r Hr. apply list_elem_of_In in Hr.
  destruct (result_origin _ _ _ _ _ Hfind Hr)
    as (w & l & h & Hc & Ew & El & Eh & _).
  cbn zeta.
  unfold candidate in Hc.
  destruct (leb (percentDifferenceOf target l w h) (Fin (tolerancePercent * 100)))
    eqn:Htol; [|destruct Hc].
  assert (r = {| width := Math_round w; length := Math_round l;
                 height := Math_round h;
                 volumeGallons := toFixed1 (Fin (calculateVolume l w h * 0.264172));
                 percentDifference := toFixed1 (percentDifferenceOf target l w h);
                 aspectRatio := getAspectRatio l w h;
                 footprint := Math_round (l * w);
                 depth := Math_round h |}) as Er
    by (destruct Hc as [<-|[]]; reflexivity).
  clear Hc.
  assert (volumeGallons r = toFixed1 (Fin (calculateVolume l w h * 0.264172))) as Ev
    by (rewrite Er; reflexivity).
  assert (percentDifference r = toFixed1 (percentDifferenceOf target l w h)) as Ep
    by (rewrite Er; reflexivity).
  assert (aspectRatio r = getAspectRatio l w h) as Ea by (rewrite Er; reflexivity).
  clear Er.
  split; [|split].
  - rewrite Ev. apply toFixed1_compat.
    unfold TankCalculator.convertToGallons, TankCalculator.calculateVolume,
      calculateVolume, CONVERSIONS.GALLONS_TO_LITERS, CONVERSIONS.INCHES_TO_CM.
    now rewrite El, Ew, Eh.
  - rewrite Ep. apply percentDifferenceOf_compat; assumption.
  - rewrite Ea. apply getAspectRatio_compat; assumption.
Qed.

End DimensionEntriesLaws.

(* ================================================================== *)
(** * Printing and parsing back                                     *)
(* ================================================================== *)

Section PrintParseLaws.

Import JS.

Lemma read_digits_stop (rest : string) (acc : Z) (cnt : nat) :
  Notions.no_leading_digit rest -> read_digits rest acc cnt = (acc, cnt, rest).
Proof.
  destruct rest as [|c rest]; cbn; [reflexivity|]. intros ->. reflexivity.
Qed.

Lemma append_cons (c : ascii) (s r : string) :
  (String c s ++ r)%string = String c (s ++ r).
Proof. reflexivity. Qed.

Lemma append_nil (r : string) : (EmptyString ++ r)%string = r.
Proof. reflexivity. Qed.

Lemma read_digits_pos (d : Decimal.uint) :
  forall (p : positive) (cnt : nat) (rest : string),
    Notions.no_leading_digit rest ->
    read_digits (NilEmpty.string_of_uint d ++ rest) (Z.pos p) cnt
    = (Z.pos (Pos.of_uint_acc d p), (cnt + Decimal.nb_digits d)%nat, rest).
Proof.
  induction d; intros p cnt rest Hrest;
    cbn [NilEmpty.string_of_uint Pos.of_uint_acc Decimal.nb_digits];
    rewrite ?append_cons, ?append_nil;
    try (rewrite Nat.add_0_r; apply read_digits_stop, Hrest);
    cbn [read_digits]; 
    match goal with
    | |- context [digit_of ?c] =>
        let v := eval vm_compute in (digit_of c) in
        change (digit_of c) with v; cbv iota
    end;
    rewrite <- Nat.add_succ_comm;
    match goal with
    | |- read_digits _ ?a _ = (Z.pos (Pos.of_uint_acc _ ?q), _, _) =>
        replace a with (Z.pos q) by lia
    end;
    apply IHd, Hrest.
Qed.

Lemma read_digits_zero (d : Decimal.uint) :
  forall (cnt : nat) (rest : string),
    Notions.no_leading_digit rest ->
    read_digits (NilEmpty.string_of_uint d ++ rest) 0 cnt
    = (Z.of_N (Pos.of_uint d), (cnt + Decimal.nb_digits d)%nat, rest).
Proof.
  induction d; intros cnt rest Hrest;
    cbn [NilEmpty.string_of_uint Pos.of_uint Decimal.nb_digits];
    rewrite ?append_cons, ?append_nil;
    try (rewrite Nat.add_0_r; exact (read_digits_stop rest 0 cnt Hrest));
    cbn [read_digits];
    match goal with
    | |- context [digit_of ?c] =>
        let v := eval vm_compute in (digit_of c) in
        change (digit_of c) with v; cbv iota
    end;
    rewrite <- Nat.add_succ_comm;
    first [ apply IHd, Hrest
          | change (Z.of_N (N.pos ?q)) with (Z.pos q);
            apply read_digits_pos, Hrest ].
Qed.

(** Reading back the digits of a non-negative integer gives the integer,
    and at least one digit is read. *)
Lemma read_digits_Z_to_string (z : Z) (cnt : nat) (rest : string) :
  (0 <= z)%Z -> Notions.no_leading_digit rest ->
  exists k, (1 <= k)%nat
            /\ read_digits (Z_to_string z ++ rest) 0 cnt = (z, (cnt + k)%nat, rest).
Proof.
  intros Hz Hrest. unfold Z_to_string. destruct z as [|p|p]; [| |lia].
  - exists 1%nat. split; [lia|]. cbn [Z.to_int NilEmpty.string_of_int].
    apply (read_digits_zero (Decimal.D0 Decimal.Nil) cnt rest Hrest).
  - exists (Decimal.nb_digits (Pos.to_uint p)). split.
    + pose proof (DecimalPos.Unsigned.to_uint_nonnil p) as Hn.
      destruct (Pos.to_uint p); cbn; try lia. contradiction.
    + cbn [Z.to_int NilEmpty.string_of_int].
      rewrite (read_digits_zero _ cnt rest Hrest), DecimalPos.Unsigned.of_to.
      reflexivity.
Qed.


(** The text of a non-negative integer begins with a digit. *)
Lemma Z_to_string_head (z : Z) :
  (0 <= z)%Z ->
  exists c s k, Z_to_string z = String c s /\ digit_of c = Some k.
Proof.
  intros Hz. unfold Z_to_string. destruct z as [|p|p]; [| |lia].
  - exists "0"%char, EmptyString, 0%Z. split; reflexivity.
  - cbn [Z.to_int NilEmpty.string_of_int].
    pose proof (DecimalPos.Unsigned.to_uint_nonnil p) as Hn.
    destruct (Pos.to_uint p); [contradiction|..];
      cbn [NilEmpty.string_of_uint]; do 3 eexists; split; reflexivity.
Qed.

(** On a text that begins with a digit, and on such a text behind a minus
    sign, [parseFloat] is the decimal read at its head. *)
Lemma parseFloat_digit_head (c : ascii) (s : string) (k : Z) :
  digit_of c = Some k ->
  parseFloat (String c s)
  = match read_decimal (String c s) with
    | Some (q, _) => Fin q
    | None => NaN
    end
  /\ parseFloat (String "-" (String c s))
     = match read_decimal (String c s) with
       | Some (q, _) => Fin (- q)
       | None => NaN
       end.
Proof.
  intros Hk.
  destruct c as [[] [] [] [] [] [] [] []]; vm_compute in Hk; try discriminate Hk;
    unfold parseFloat, read_signed; cbn [skip_white];
    repeat match goal with
           | |- context [is_white ?c] =>
               let v := eval vm_compute in (is_white c) in
               change (is_white c) with v
           end;
    cbv iota;
    repeat match goal with
           | |- context [String.prefix ?a ?b] =>
               let v := eval vm_compute in (String.prefix a b) in
               change (String.prefix a b) with v
           end;
    cbv iota beta;
    match goal with
    | |- context [read_decimal ?t] => destruct (read_decimal t) as [[q r]|]
    end; split; reflexivity.
Qed.

Lemma read_single_digit (b : Z) :
  (0 <= b < 10)%Z -> read_digits (Z_to_string b) 0 0 = (b, 1%nat, EmptyString).
Proof.
  intros Hb.
  assert (b = 0 \/ b = 1 \/ b = 2 \/ b = 3 \/ b = 4 \/ b = 5 \/ b = 6 \/ b = 7
          \/ b = 8 \/ b = 9)%Z as H by lia.
  destruct H as [->|[->|[->|[->|[->|[->|[->|[->|[->| ->]]]]]]]]]; reflexivity.
Qed.

(** The decimal read at the head of the text printed for a non-negative
    number: the integer part, and one digit behind the point. *)
Lemma read_decimal_toFixed1_nonneg (q : Q) :
  0 <= q ->
  let n := Qfloor (q * 10 + 1 / 2) in
  read_decimal (toFixed1_nonneg q)
  = Some (inject_Z (n / 10) + inject_Z (n mod 10) / inject_Z (10 ^ 1), EmptyString).
Proof.
  intros Hq n.
  assert (0 <= n)%Z as Hn.
  { subst n. change 0%Z with (Qfloor 0). apply Qfloor_resp_le. change (1 / 2) with (1 # 2). lra. }
  assert (0 <= n / 10)%Z as Ha by (apply Z.div_pos; lia).
  assert (0 <= n mod 10 < 10)%Z as Hb by (apply Z.mod_pos_bound; lia).
  unfold toFixed1_nonneg. fold n. unfold read_decimal.
  destruct (read_digits_Z_to_string (n / 10) 0 ("." ++ Z_to_string (n mod 10)) Ha)
    as (k & Hk & ->); [reflexivity|].
  rewrite append_cons, append_nil, (read_single_digit _ Hb).
  destruct k as [|k]; [lia|]. reflexivity.
Qed.

(** The value of the text printed for a non-negative number, bare and
    behind a minus sign. *)
Lemma parseFloat_toFixed1_nonneg (q : Q) :
  0 <= q ->
  let n := Qfloor (q * 10 + 1 / 2) in
  let x := inject_Z (n / 10) + inject_Z (n mod 10) / inject_Z (10 ^ 1) in
  parseFloat (toFixed1_nonneg q) = Fin x
  /\ parseFloat ("-" ++ toFixed1_nonneg q) = Fin (- x).
Proof.
  intros Hq n x.
  pose proof (read_decimal_toFixed1_nonneg q Hq) as Hread. cbn zeta in Hread.
  fold n in Hread. fold x in Hread.
  assert (exists c s k, toFixed1_nonneg q = String c s /\ digit_of c = Some k)
    as (c & s & k & Es & Hk).
  { unfold toFixed1_nonneg.
    destruct (Z_to_string_head (Qfloor (q * 10 + 1 / 2) / 10)) as (c & s & k & E & Hk).
    - apply Z.div_pos; [|lia]. change 0%Z with (Qfloor 0).
      apply Qfloor_resp_le. change (1 / 2) with (1 # 2). lra.
    - exists c. eexists. exists k. rewrite E, append_cons.
      split; [reflexivity|exact Hk]. }
  rewrite append_cons, append_nil. rewrite Es in *.
  destruct (parseFloat_digit_head c s k Hk) as [-> ->]. rewrite Hread.
  split; reflexivity.
Qed.


(** The text printed for a finite number parses to a finite number. *)
Lemma parseFloat_toFixed1_finite (q : Q) :
  exists x, parseFloat (toFixed1 (Fin q)) = Fin x.
Proof.
  unfold toFixed1. destruct (Qlt_bool q 0) eqn:Hneg.
  - assert (0 <= - q) as Hq.
    { unfold Qlt_bool in Hneg. apply negb_true_iff in Hneg.
      apply Qle_bool_false in Hneg. lra. }
    eexists. exact (proj2 (parseFloat_toFixed1_nonneg (- q) Hq)).
  - assert (0 <= q) as Hq.
    { unfold Qlt_bool in Hneg. apply negb_false_iff in Hneg.
      apply Qle_bool_iff in Hneg. exact Hneg. }
    eexists. exact (proj1 (parseFloat_toFixed1_nonneg q Hq)).
Qed.


End PrintParseLaws.

(* ================================================================== *)
(** * The order of the results                                      *)
(* ================================================================== *)

Section SortedLaws.

Import JS.
Import DimensionFinder.

(** The percent difference of a triple is a finite number, [NaN] or plus
    infinity; within the tolerance it is finite. *)
Lemma percentDifferenceOf_within (target l w h : Q) (bound : Q) :
  leb (percentDifferenceOf target l w h) (Fin bound) = true ->
  exists x, percentDifferenceOf target l w h = Fin x.
Proof.
  unfold percentDifferenceOf.
  pose proof (Qabs_nonneg (calculateVolume l w h * 0.264172 - target)) as Hd.
  revert Hd. generalize (Qabs (calculateVolume l w h * 0.264172 - target)) as d.
  intros d Hd. cbn [div]. destruct (Qeq_bool target 0).
  - destruct (d ?= 0) eqn:E.
    + cbn. discriminate.
    + apply Qlt_alt in E. lra.
    + cbn. discriminate.
  - cbn [mul]. intros _. eexists. reflexivity.
Qed.

Lemma candidate_shown_finite (target w l h : Q) (r : Result) :
  In r (candidate target w l h) -> exists x, Notions.shown_difference r = Fin x.
Proof.
  intros Hr. apply candidate_In in Hr. destruct Hr as (Htol & _ & _ & _ & Hpd & _).
  apply percentDifferenceOf_within in Htol. destruct Htol as [x Hx].
  unfold Notions.shown_difference. rewrite Hpd, Hx. apply parseFloat_toFixed1_finite.
Qed.

Lemma insert_sorted_sorted (x : Result) (l : list Result) :
  (exists k, Notions.shown_difference x = Fin k) ->
  Forall (fun y => exists k, Notions.shown_difference y = Fin k) l ->
  StronglySorted Notions.no_farther l ->
  StronglySorted Notions.no_farther (insert_sorted compareResults x l).
Proof.
  intros [kx Hx] Hl Hs. induction l as [|y l IH]; cbn [insert_sorted].
  - repeat constructor.
  - apply Forall_cons in Hl. destruct Hl as [[ky Hy] Hl].
    apply StronglySorted_cons in Hs. destruct Hs as [Hy_l Hs].
    unfold compareResults. fold (Notions.shown_difference x). fold (Notions.shown_difference y).
    rewrite Hx, Hy. cbn [sub neg add gtb ltb].
    destruct (Qlt_bool 0 (kx + - ky)) eqn:E.
    + assert (Notions.no_farther y x) as Hyx.
      { unfold Notions.no_farther. rewrite Hx, Hy. cbn [leb]. apply Qle_bool_iff.
        unfold Qlt_bool in E. apply negb_true_iff, Qle_bool_false in E. lra. }
      apply StronglySorted_cons. split; [|apply IH; assumption].
      apply Forall_forall. intros z Hz. apply list_elem_of_In, insert_sorted_In in Hz.
      destruct Hz as [->|Hz]; [exact Hyx|].
      rewrite Forall_forall in Hy_l. apply Hy_l, list_elem_of_In, Hz.
    + assert (Notions.no_farther x y) as Hxy.
      { unfold Notions.no_farther. rewrite Hx, Hy. cbn [leb]. apply Qle_bool_iff.
        unfold Qlt_bool in E. apply negb_false_iff, Qle_bool_iff in E. lra. }
      apply StronglySorted_cons. split.
      * constructor; [exact Hxy|].
        eapply Forall_impl; [exact Hy_l|]. intros z Hz.
        unfold Notions.no_farther in *. eapply leb_trans; eassumption.
      * apply StronglySorted_cons. split; assumption.
Qed.

Lemma sort_sorted (l : list Result) :
  Forall (fun y => exists k, Notions.shown_difference y = Fin k) l ->
  StronglySorted Notions.no_farther (sort compareResults l).
Proof.
  unfold sort. induction l as [|x l IH]; cbn [fold_right]; intros Hl.
  - constructor.
  - apply Forall_cons in Hl. destruct Hl as [Hx Hl].
    apply insert_sorted_sorted; [exact Hx| |apply IH, Hl].
    apply Forall_forall. intros y Hy. apply list_elem_of_In, sort_In in Hy.
    rewrite Forall_forall in Hl. apply Hl, list_elem_of_In, Hy.
Qed.

Lemma unique_loop_sorted (maxResults : Z) (results : list Result) :
  forall (unique : list Result) (seen : gset string),
    StronglySorted Notions.no_farther (unique ++ results) ->
    StronglySorted Notions.no_farther (unique_loop results unique seen maxResults).
Proof.
  induction results as [|x results IH]; intros unique seen Hs; cbn [unique_loop].
  - rewrite app_nil_r in Hs. exact Hs.
  - assert (StronglySorted Notions.no_farther ((unique ++ [x]) ++ results)) as Hs'
      by (rewrite <- app_assoc; exact Hs).
    destruct (bool_decide (key x ∈ seen)).
    + apply IH. apply StronglySorted_app in Hs. destruct Hs as (H1 & H2 & H3).
      apply StronglySorted_cons in H3. destruct H3 as [_ H3].
      apply StronglySorted_app. split; [|split; assumption].
      intros a b Ha Hb. apply H1; [exact Ha|]. apply elem_of_cons. right. exact Hb.
    + destruct (maxResults <=? _)%Z.
      * apply StronglySorted_app_1_l in Hs'. exact Hs'.
      * apply IH, Hs'.
Qed.

(** X23.  The result list is in ascending order of the percent difference
    shown: no entry is followed by one that is shown closer to the
    target. *)
Theorem findDimensions_sorted
    (target : Q) (constraints : Constraints) (maxResults : Z) :
  exists results,
    findDimensions target constraints maxResults = Some results
    /\ StronglySorted Notions.no_farther results.
Proof.
  destruct (findDimensions_total target constraints maxResults)
    as (ws & ls & hs & _ & _ & _ & Hfind).
  eexists. split; [exact Hfind|].
  apply unique_loop_sorted. cbn [app]. apply sort_sorted.
  apply Forall_forall. intros r Hr. apply list_elem_of_In, enumerate_In in Hr.
  destruct Hr as (w & l & h & _ & _ & _ & Hr).
  apply (candidate_shown_finite _ _ _ _ _ Hr).
Qed.

End SortedLaws.

(* ================================================================== *)
(** * The unique results                                            *)
(* ================================================================== *)

Section UniqueLaws.

Import JS.
Import DimensionFinder.
Import Notions.

Lemma unique_loop_extends (maxResults : Z) (results : list Result) :
  forall (unique : list Result) (seen : gset string),
    unique `prefix_of` unique_loop results unique seen maxResults.
Proof.
  induction results as [|x results IH]; intros unique seen; cbn [unique_loop].
  - reflexivity.
  - destruct (bool_decide (key x ∈ seen)); [apply IH|].
    destruct (maxResults <=? _)%Z; [apply prefix_app_r; reflexivity|].
    etrans; [|apply IH]. apply prefix_app_r. reflexivity.
Qed.

Lemma unique_loop_prefix (m m' : Z) (results : list Result) :
  (m <= m')%Z ->
  forall (unique : list Result) (seen : gset string),
    unique_loop results unique seen m `prefix_of` unique_loop results unique seen m'.
Proof.
  intros Hm. induction results as [|x results IH]; intros unique seen; cbn [unique_loop].
  - reflexivity.
  - destruct (bool_decide (key x ∈ seen)); [apply IH|].
    destruct (m <=? _)%Z eqn:E, (m' <=? _)%Z eqn:E'.
    + reflexivity.
    + apply unique_loop_extends.
    + apply Z.leb_le in E'. apply Z.leb_gt in E. lia.
    + apply IH.
Qed.

Lemma unique_loop_below_one (m : Z) (results : list Result) :
  (m <= 1)%Z ->
  forall (unique : list Result) (seen : gset string),
    unique_loop results unique seen m = unique_loop results unique seen 1.
Proof.
  intros Hm. induction results as [|x results IH]; intros unique seen; cbn [unique_loop].
  - reflexivity.
  - destruct (bool_decide (key x ∈ seen)); [apply IH|].
    assert (1 <= Z.of_nat (List.length (unique ++ [x])))%Z as Hlen
      by (rewrite length_app; cbn [List.length]; lia).
    rewrite (proj2 (Z.leb_le m _)) by lia.
    rewrite (proj2 (Z.leb_le 1 _)) by lia. reflexivity.
Qed.

(** X24.  Raising the maximum only extends the list of unique results:
    the list for a smaller maximum is a prefix of the list for a larger
    one.  A maximum below one behaves as the maximum one: the first
    result is pushed before the maximum is tested. *)
Theorem getUniqueResults_growing (results : list Result) (m m' : Z) :
  (m <= m')%Z ->
  getUniqueResults results m `prefix_of` getUniqueResults results m'
  /\ ((m' <= 1)%Z -> getUniqueResults results m = getUniqueResults results m')
  /\ (results <> [] -> getUniqueResults results m <> []).
Proof.
  intros Hm. split; [apply unique_loop_prefix, Hm|]. split.
  - intros Hm'. unfold getUniqueResults.
    rewrite (unique_loop_below_one m) by lia.
    rewrite (unique_loop_below_one m') by lia. reflexivity.
  - destruct results as [|x results]; [congruence|]. intros _.
    unfold getUniqueResults. cbn [unique_loop].
    rewrite bool_decide_eq_false_2 by set_solver.
    destruct (m <=? _)%Z; [discriminate|].
    pose proof (unique_loop_extends m results ([] ++ [x]) ({[key x]} ∪ ∅)) as [k ->].
    discriminate.
Qed.

Lemma getUniqueResults_growing_witness :
  (0 <= 10)%Z
  /\ getUniqueResults (sort compareResults (enumerate 20 [12] [12; 16] [24; 32])) 0
     `prefix_of`
     getUniqueResults (sort compareResults (enumerate 20 [12] [12; 16] [24; 32])) 10.
Proof.
  assert (0 <= 10)%Z as H by lia.
  split; [exact H|].
  exact (proj1 (getUniqueResults_growing
                  (sort compareResults (enumerate 20 [12] [12; 16] [24; 32])) 0 10 H)).
Defined.

(** ** No candidate is a duplicate *)

Lemma insert_sorted_Permutation (cmp : Result -> Result -> num) (x : Result)
    (l : list Result) :
  Permutation (insert_sorted cmp x l) (x :: l).
Proof.
  induction l as [|y l IH]; cbn [insert_sorted]; [reflexivity|].
  destruct (gtb (cmp x y) (Fin 0)); [|reflexivity].
  rewrite IH. apply perm_swap.
Qed.

Lemma sort_Permutation (cmp : Result -> Result -> num) (l : list Result) :
  Permutation (sort cmp l) l.
Proof.
  unfold sort. induction l as [|x l IH]; cbn [fold_right]; [reflexivity|].
  rewrite insert_sorted_Permutation, IH. reflexivity.
Qed.

(** Lists that are distinct under a tag stay so when each element is
    replaced by a list of elements, distinct under a key, that carry its
    tag. *)
Lemma NoDup_flat_map_tagged {A B K T : Type} (f : A -> T) (k : B -> K)
    (tag : K -> T) (inner : A -> list B) (l : list A) :
  NoDup (map f l) ->
  (forall a, In a l -> NoDup (map k (inner a))) ->
  (forall a b, In a l -> In b (inner a) -> tag (k b) = f a) ->
  NoDup (map k (flat_map inner l)).
Proof.
  induction l as [|a l IH]; cbn [flat_map map]; intros Hnd Hin Htag; [constructor|].
  apply NoDup_cons in Hnd. destruct Hnd as [Ha Hnd].
  rewrite map_app. apply NoDup_app. split; [|split].
  - apply Hin. left. reflexivity.
  - intros x Hx Hx'. apply Ha.
    apply list_elem_of_In, in_map_iff in Hx. destruct Hx as (b & <- & Hb).
    apply list_elem_of_In, in_map_iff in Hx'. destruct Hx' as (b' & E & Hb').
    apply in_flat_map in Hb'. destruct Hb' as (a' & Ha' & Hb').
    apply list_elem_of_In, in_map_iff. exists a'. split; [|exact Ha'].
    rewrite <- (Htag a' b') by (cbn; auto). rewrite E.
    apply Htag; [left; reflexivity | exact Hb].
  - apply IH; [exact Hnd | |]; intros; [apply Hin | apply Htag]; cbn; auto.
Qed.

(** The values of a range that starts at an integer round to pairwise
    different integers. *)
Lemma chain_round_NoDup (max current : Q) (l : list Q) :
  chain max current l ->
  (exists z, current == inject_Z z) ->
  NoDup (map Math_round l).
Proof.
  induction 1 as [|current rest Hle Hrest IH]; intros [z Hz]; cbn [map]; [constructor|].
  destruct (step_after_integer current) as [s Hs].
  assert (current + Notions.step_after current == inject_Z (z + s)) as Hnext
    by (rewrite Hs, Hz, inject_Z_plus; reflexivity).
  apply NoDup_cons. split; [|apply IH; exists (z + s)%Z; exact Hnext].
  intros Hin. apply list_elem_of_In, in_map_iff in Hin. destruct Hin as (x & Ex & Hx).
  pose proof (chain_bounds _ _ _ Hrest) as Hb.
  assert (exists k, current + Notions.step_after current == inject_Z k) as Hk
    by (exists (z + s)%Z; exact Hnext).
  pose proof (chain_integers _ _ _ Hrest Hk) as Hi.
  rewrite Forall_forall in Hb, Hi. apply list_elem_of_In in Hx.
  destruct (Hb x Hx) as [Hlow _]. destruct (Hi x Hx) as [zx Hzx].
  rewrite (Math_round_integer x zx Hzx), (Math_round_integer current z Hz) in Ex.
  subst zx. pose proof (step_after_positive current) as Hpos. lra.
Qed.

Lemma getDimensionRange_round_NoDup (min max : Q) (range : list Q) (z : Z) :
  min == inject_Z z ->
  getDimensionRange min max = Some range ->
  NoDup (map Math_round range).
Proof.
  intros Hz Hrange.
  apply range_loop_chain in Hrange. destruct Hrange as (l & -> & Hchain).
  cbn [app]. apply (chain_round_NoDup _ _ _ Hchain). exists z. exact Hz.
Qed.

Lemma candidate_NoDup (target w l h : Q) :
  NoDup (map Notions.triple (candidate target w l h)).
Proof.
  unfold candidate. destruct (leb _ _); cbn [map].
  - apply NoDup_singleton.
  - constructor.
Qed.

Lemma enumerate_NoDup (target : Q) (ws ls hs : list Q) :
  NoDup (map Math_round ws) -> NoDup (map Math_round ls) ->
  NoDup (map Math_round hs) ->
  NoDup (map Notions.triple (enumerate target ws ls hs)).
Proof.
  intros Hws Hls Hhs. unfold enumerate.
  apply (NoDup_flat_map_tagged Math_round Notions.triple (fun t => fst (fst t)));
    [exact Hws| |].
  - intros w _.
    apply (NoDup_flat_map_tagged Math_round Notions.triple (fun t => snd (fst t)));
      [exact Hls| |].
    + intros l _.
      apply (NoDup_flat_map_tagged Math_round Notions.triple (fun t => snd t));
        [exact Hhs| |].
      * intros h _. apply candidate_NoDup.
      * intros h r _ Hr. apply candidate_In in Hr. cbn. tauto.
    + intros l r _ Hr. apply in_flat_map in Hr. destruct Hr as (h & _ & Hr).
      apply candidate_In in Hr. cbn. tauto.
  - intros w r _ Hr. apply in_flat_map in Hr. destruct Hr as (l & _ & Hr).
    apply in_flat_map in Hr. destruct Hr as (h & _ & Hr).
    apply candidate_In in Hr. cbn. tauto.
Qed.

Lemma key_triple (a b : Result) : key a = key b -> Notions.triple a = Notions.triple b.
Proof.
  intros E. apply key_inj in E. destruct E as (Ew & El & Eh).
  unfold Notions.triple. now rewrite Ew, El, Eh.
Qed.

(** On a list without two entries of the same triple, none of them seen
    before, the loop keeps every entry up to the maximum. *)
Lemma unique_loop_firstn (m : Z) (results : list Result) :
  forall (unique : list Result) (seen : gset string),
    NoDup (map Notions.triple results) ->
    (forall r, In r results -> key r ∉ seen) ->
    unique_loop results unique seen m
    = unique ++ firstn (Z.to_nat (Z.max 1 (m - Z.of_nat (List.length unique)))) results.
Proof.
  induction results as [|x results IH]; intros unique seen Hnd Hseen; cbn [unique_loop].
  - rewrite firstn_nil, app_nil_r. reflexivity.
  - cbn [map] in Hnd. apply NoDup_cons in Hnd. destruct Hnd as [Hx Hnd].
    rewrite bool_decide_eq_false_2 by (apply Hseen; left; reflexivity).
    rewrite length_app. cbn [List.length].
    destruct (m <=? _)%Z eqn:E.
    + apply Z.leb_le in E.
      replace (Z.to_nat (Z.max 1 (m - Z.of_nat (List.length unique)))) with 1%nat by lia.
      reflexivity.
    + apply Z.leb_gt in E.
      rewrite IH; [|exact Hnd|].
      * rewrite length_app. cbn [List.length]. rewrite <- app_assoc. cbn [app].
        replace (Z.to_nat (Z.max 1 (m - Z.of_nat (List.length unique))))
          with (S (Z.to_nat (Z.max 1 (m - Z.of_nat (List.length unique + 1))))) by lia.
        reflexivity.
      * intros r Hr Hin. apply elem_of_union in Hin. destruct Hin as [Hin|Hin].
        -- apply elem_of_singleton in Hin. apply Hx.
           apply list_elem_of_In, in_map_iff. exists r.
           split; [apply key_triple, Hin | exact Hr].
        -- apply (Hseen r); [right; exact Hr | exact Hin].
Qed.

(** X25.  No candidate of a search is a duplicate of another: the grid
    values are pairwise different integers, so the keys of the candidates
    are pairwise different and the result is the sorted list of all the
    candidates within the tolerance, cut after the first [maxResults]
    entries (after the first entry for a maximum below one). *)
Theorem findDimensions_first_candidates
    (target : Q) (constraints : Constraints) (maxResults : Z) :
  exists widthRange lengthRange heightRange,
    getDimensionRange minDimension (or_default (maxWidth constraints) maxDimension)
    = Some widthRange
    /\ getDimensionRange minDimension (or_default (maxLength constraints) maxDimension)
       = Some lengthRange
    /\ getDimensionRange 12 (or_default (maxHeight constraints) 60) = Some heightRange
    /\ NoDup (map Notions.triple (enumerate target widthRange lengthRange heightRange))
    /\ findDimensions target constraints maxResults
       = Some (firstn (Z.to_nat (Z.max 1 maxResults))
                 (sort compareResults
                    (enumerate target widthRange lengthRange heightRange))).
Proof.
  destruct (findDimensions_total target constraints maxResults)
    as (ws & ls & hs & Hws & Hls & Hhs & Hfind).
  exists ws, ls, hs.
  split; [exact Hws|]. split; [exact Hls|]. split; [exact Hhs|].
  assert (NoDup (map Notions.triple (enumerate target ws ls hs))) as Hnd.
  { apply enumerate_NoDup.
    - apply (getDimensionRange_round_NoDup _ _ _ 10%Z) in Hws; [exact Hws|reflexivity].
    - apply (getDimensionRange_round_NoDup _ _ _ 10%Z) in Hls; [exact Hls|reflexivity].
    - apply (getDimensionRange_round_NoDup _ _ _ 12%Z) in Hhs; [exact Hhs|reflexivity]. }
  split; [exact Hnd|].
  rewrite Hfind. f_equal. unfold getUniqueResults.
  rewrite unique_loop_firstn.
  - cbn [app List.length]. rewrite Z.sub_0_r. reflexivity.
  - rewrite (sort_Permutation compareResults (enumerate target ws ls hs)). exact Hnd.
  - intros r _. set_solver.
Qed.

End UniqueLaws.

(* ================================================================== *)
(** * The popular presets                                           *)
(* ================================================================== *)

Section PresetLaws.

Import DimensionFinder.

(** X26.  The popular presets of a volume are the presets of the table
    whose nominal volume lies between 0.8 and 1.2 times the volume, in the
    order of the table.  There is none for a volume of zero or less, and
    every preset is among the presets of its own nominal volume. *)
Theorem getPopularPresets_band (volumeGallons : Q) :
  (forall p, In p (getPopularPresets volumeGallons) <->
             In p presets
             /\ 0.8 * volumeGallons <= Preset.volume p
             /\ Preset.volume p <= 1.2 * volumeGallons)
  /\ sublist (getPopularPresets volumeGallons) presets
  /\ (volumeGallons <= 0 -> getPopularPresets volumeGallons = [])
  /\ (forall p, In p presets -> In p (getPopularPresets (Preset.volume p))).
Proof.
  assert (forall v p, In p (getPopularPresets v) <->
             In p presets /\ 0.8 * v <= Preset.volume p /\ Preset.volume p <= 1.2 * v)
    as Hiff.
  { intros v p. unfold getPopularPresets. cbn zeta. rewrite filter_In.
    rewrite Qle_bool_iff, Qabs_Qle_condition. split; intros [Hp H]; (split; [exact Hp|]);
      destruct H as [H1 H2]; split; lra. }
  split; [apply Hiff|]. split; [|split].
  - unfold getPopularPresets. cbn zeta.
    generalize presets. intros l. induction l as [|p l IH]; cbn [List.filter].
    + constructor.
    + destruct (Qle_bool _ _); [apply sublist_skip | apply sublist_cons]; exact IH.
  - intros Hv.
    destruct (getPopularPresets volumeGallons) as [|p l] eqn:E; [reflexivity|].
    assert (In p (getPopularPresets volumeGallons)) as Hp by (rewrite E; left; reflexivity).
    apply Hiff in Hp. destruct Hp as (Hp & H1 & H2). exfalso.
    assert (10 <= Preset.volume p) as Hvol.
    { revert Hp. unfold presets. cbn [In].
      intros Hp. repeat (destruct Hp as [<-|Hp]; [cbn; lra|]). destruct Hp. }
    lra.
  - intros p Hp. apply Hiff. split; [exact Hp|].
    assert (10 <= Preset.volume p) as Hvol.
    { revert Hp. unfold presets. cbn [In].
      intros Hp. repeat (destruct Hp as [<-|Hp]; [cbn; lra|]). destruct Hp. }
    split; lra.
Qed.

End PresetLaws.

(* ================================================================== *)
(** * The range of the sliders                                      *)
(* ================================================================== *)

Section ClampLaws.

Import JS.
Import AquariumApp.

Lemma Math_round_bounds (q : Q) (a b : Z) :
  inject_Z a <= q -> q <= inject_Z b -> (a <= Math_round q <= b)%Z.
Proof.
  intros Ha Hb. unfold Math_round. split.
  - rewrite <- (Qfloor_Z a). apply Qfloor_resp_le. change (1 / 2) with (1 # 2). lra.
  - assert (Qfloor (q + 1 / 2) < b + 1)%Z as H; [|lia].
    rewrite Zlt_Qlt. eapply Qle_lt_trans; [apply Qfloor_le|].
    rewrite inject_Z_plus. change (inject_Z 1) with 1.
    change (1 / 2) with (1 # 2). lra.
Qed.

(** Clamping between two bounds. *)
Lemma clamp_between (lo hi : Q) (cm : num) :
  lo < hi -> cm <> NaN ->
  exists c,
    Math_max (Fin lo) (Math_min (Fin hi) cm) = Fin c
    /\ lo <= c /\ c <= hi
    /\ (forall x, cm = Fin x -> lo <= x -> x <= hi -> c == x)
    /\ Math_max (Fin lo) (Math_min (Fin hi) (Fin c)) = Fin c.
Proof.
  intros Hlt Hnan.
  assert (Qle_bool hi lo = false) as Hhl.
  { destruct (Qle_bool hi lo) eqn:E; [|reflexivity]. apply Qle_bool_iff in E. lra. }
  assert (Qle_bool lo hi = true) as Hlh by (apply Qle_bool_iff; lra).
  assert (Qle_bool hi hi = true) as Hhh by (apply Qle_bool_iff; lra).
  assert (Qle_bool lo lo = true) as Hll by (apply Qle_bool_iff; lra).
  destruct cm as [x| | |]; [| | |congruence].
  - cbn [Math_min Math_max leb]. destruct (Qle_bool hi x) eqn:E.
    + apply Qle_bool_iff in E. cbn [Math_max leb]. rewrite Hlh.
      exists hi. split; [reflexivity|]. split; [lra|]. split; [lra|]. split.
      * intros y Hy H1 H2. injection Hy as <-. lra.
      * cbn [Math_min Math_max leb]. rewrite Hhh. cbn [Math_max leb].
        rewrite Hlh. reflexivity.
    + apply Qle_bool_false in E. cbn [Math_max leb]. destruct (Qle_bool lo x) eqn:E'.
      * apply Qle_bool_iff in E'.
        exists x. split; [reflexivity|]. split; [lra|]. split; [lra|]. split.
        -- intros y Hy _ _. injection Hy as <-. reflexivity.
        -- cbn [Math_min Math_max leb].
           assert (Qle_bool hi x = false) as ->.
           { destruct (Qle_bool hi x) eqn:E''; [|reflexivity].
             apply Qle_bool_iff in E''. lra. }
           cbn [Math_max leb].
           assert (Qle_bool lo x = true) as -> by (apply Qle_bool_iff; lra).
           reflexivity.
      * apply Qle_bool_false in E'.
        exists lo. split; [reflexivity|]. split; [lra|]. split; [lra|]. split.
        -- intros y Hy H1 H2. injection Hy as <-. lra.
        -- cbn [Math_min Math_max leb]. rewrite Hhl. cbn [Math_max leb].
           rewrite Hll. reflexivity.
  - cbn [Math_min Math_max leb]. rewrite Hlh.
    exists hi. split; [reflexivity|]. split; [lra|]. split; [lra|]. split.
    + intros y Hy. discriminate Hy.
    + cbn [Math_min Math_max leb]. rewrite Hhh. cbn [Math_max leb].
      rewrite Hlh. reflexivity.
  - cbn [Math_min Math_max leb].
    exists lo. split; [reflexivity|]. split; [lra|]. split; [lra|]. split.
    + intros y Hy. discriminate Hy.
    + cbn [Math_min Math_max leb]. rewrite Hhl. cbn [Math_max leb].
      rewrite Hll. reflexivity.
Qed.

(** X27.  A dimension that is a number, the infinities included, is
    clamped into the range of the sliders: between 25.4 and 304.8 cm in
    the imperial system, where it is shown as a whole number of inches
    from 10 to 120, and between 25 and 305 cm otherwise, where it is shown
    as a whole number of centimetres from 25 to 305.  A value within the
    range is left as it is, and clamping twice is clamping once. *)
Theorem clampDimension_range (currentUnitSystem : string) (cm : num) :
  cm <> NaN ->
  exists c,
    clampDimension currentUnitSystem cm = Fin c
    /\ (if String.eqb currentUnitSystem UNIT_SYSTEMS.IMPERIAL
        then 25.4 <= c /\ c <= 304.8
             /\ (10 <= Math_round (c / CONVERSIONS.INCHES_TO_CM) <= 120)%Z
        else 25 <= c /\ c <= 305 /\ (25 <= Math_round c <= 305)%Z)
    /\ (forall x, cm = Fin x ->
          (if String.eqb currentUnitSystem UNIT_SYSTEMS.IMPERIAL
           then 25.4 <= x /\ x <= 304.8 else 25 <= x /\ x <= 305) ->
          c == x)
    /\ clampDimension currentUnitSystem (Fin c) = Fin c.
Proof.
  intros Hnan. unfold clampDimension.
  destruct (String.eqb currentUnitSystem UNIT_SYSTEMS.IMPERIAL).
  - destruct (clamp_between 25.4 304.8 cm) as (c & Hc & H1 & H2 & Hid & Hidem);
      [reflexivity | exact Hnan |].
    exists c. split; [exact Hc|]. split; [|split; [|exact Hidem]].
    + split; [exact H1|]. split; [exact H2|].
      unfold CONVERSIONS.INCHES_TO_CM. apply Math_round_bounds.
      * change (inject_Z 10) with 10. apply Qle_shift_div_l; lra.
      * change (inject_Z 120) with 120. apply Qle_shift_div_r; lra.
    + intros x Hx [Hx1 Hx2]. exact (Hid x Hx Hx1 Hx2).
  - destruct (clamp_between 25 305 cm) as (c & Hc & H1 & H2 & Hid & Hidem);
      [reflexivity | exact Hnan |].
    exists c. split; [exact Hc|]. split; [|split; [|exact Hidem]].
    + split; [exact H1|]. split; [exact H2|].
      apply Math_round_bounds.
      * change (inject_Z 25) with 25. lra.
      * change (inject_Z 305) with 305. lra.
    + intros x Hx [Hx1 Hx2]. exact (Hid x Hx Hx1 Hx2).
Qed.

Lemma clampDimension_range_witness :
  PInf <> NaN
  /\ exists c, clampDimension UNIT_SYSTEMS.IMPERIAL PInf = Fin c
               /\ 25.4 <= c /\ c <= 304.8.
Proof.
  assert (PInf <> NaN) as H by discriminate.
  split; [exact H|].
  destruct (clampDimension_range UNIT_SYSTEMS.IMPERIAL PInf H) as (c & Hc & Hb & _).
  exists c. split; [exact Hc|].
  change (String.eqb UNIT_SYSTEMS.IMPERIAL UNIT_SYSTEMS.IMPERIAL) with true in Hb.
  destruct Hb as (H1 & H2 & _). split; assumption.
Defined.

End ClampLaws.

(* ================================================================== *)
(** * The aspect-ratio label                                        *)
(* ================================================================== *)

Section AspectRatioLaws.

Import JS.
Import DimensionFinder.





End AspectRatioLaws.
